(** * Mental-health support chatbot: analysis pipeline, prompt composer,
      completion gateway and the /chat request handler.

    Shallow embedding of [ai_service.py], [database_service.py], [models.py]
    and [main.py].

    - A Python [str] is the list of its Unicode code points ([list N]);
      [len] is the number of code points, [in] on strings is sub-list
      containment, [split()] cuts at the code points for which
      [str.isspace] holds.
    - Three parts of the Python runtime and of the completion service are
      not in the repository and are Section variables: [lower], the Unicode
      case mapping of [str.lower]; [py_format], the printed form of a value
      in an f-string; [generate_content], the call of the completion
      service.  Every statement below holds for any such functions;
      [ascii_lower], [basic_format] and [canned] are instances used on
      concrete inputs.
    - The SQLAlchemy session is an explicit [DB] value threaded through the
      service methods; the column default [datetime.utcnow] is an explicit
      time-stamp argument.
    - The store accepts every row and answers every query.  A request the
      database refuses ends in the [except] branch of the handler (HTTP 500)
      and is not described here: what is said of a response is said of the
      requests that return one.
    - The queries order by time stamp only.  [newest] reads rows of equal
      time stamp in table order; a statement that depends on the order
      among equal time stamps assumes them pairwise distinct.
    - Exceptions are the [Raise] branch of [result]. *)

From Stdlib Require Import List NArith ZArith Lia Bool String Ascii.
From Stdlib Require Import DecimalString Permutation Sorted.
Import ListNotations.

Set Implicit Arguments.
Set Default Proof Using "Type".

(* ================================================================== *)
(** ** Python strings *)

Module PyStr.

Definition str := list N.

(** An ASCII literal of the source, as code points. *)
Definition py (s : string) : str := map N_of_ascii (list_ascii_of_string s).
Arguments py s%_string.

Fixpoint str_eqb (a b : str) : bool :=
  match a, b with
  | [], [] => true
  | x :: a', y :: b' => N.eqb x y && str_eqb a' b'
  | _, _ => false
  end.

(** [s.startswith(p)] *)
Fixpoint startswith (p s : str) : bool :=
  match p, s with
  | [], _ => true
  | x :: p', y :: s' => N.eqb x y && startswith p' s'
  | _ :: _, [] => false
  end.

(** [k in s] for two strings. *)
Fixpoint contains (k s : str) : bool :=
  startswith k s ||
  match s with
  | [] => false
  | _ :: s' => contains k s'
  end.

(** [w in l] for a string and a list of strings. *)
Definition mem (w : str) (l : list str) : bool := existsb (str_eqb w) l.

(** [any(k in s for k in keywords)] *)
Definition any_in (keywords : list str) (s : str) : bool :=
  existsb (fun k => contains k s) keywords.

(** [str.isspace] on one code point: the white-space code points of the
    Unicode database used by [split()] and [strip()]. *)
Definition isspace (c : N) : bool :=
  ((9 <=? c) && (c <=? 13) || (28 <=? c) && (c <=? 32) ||
   (c =? 133) || (c =? 160) || (c =? 5760) ||
   (8192 <=? c) && (c <=? 8202) ||
   (c =? 8232) || (c =? 8233) || (c =? 8239) || (c =? 8287) ||
   (c =? 12288))%N.

(** [s.split()]: maximal runs of non-space code points, in order.
    [cur] holds the current run, reversed. *)
Definition flush (cur : str) (rest : list str) : list str :=
  match cur with
  | [] => rest
  | _ :: _ => rev cur :: rest
  end.

Fixpoint split_from (cur : str) (s : str) : list str :=
  match s with
  | [] => flush cur []
  | c :: s' =>
      if isspace c then flush cur (split_from [] s')
      else split_from (c :: cur) s'
  end.

Definition split (s : str) : list str := split_from [] s.

(** [sep.join(parts)] *)
Fixpoint join (sep : str) (parts : list str) : str :=
  match parts with
  | [] => []
  | [p] => p
  | p :: ps => p ++ sep ++ join sep ps
  end.

Fixpoint lstrip (s : str) : str :=
  match s with
  | c :: s' => if isspace c then lstrip s' else s
  | [] => []
  end.

Definition rstrip (s : str) : str := rev (lstrip (rev s)).

(** [s.strip()] *)
Definition strip (s : str) : str := rstrip (lstrip s).

(** [s.replace(old, new)] for a one-code-point [old]. *)
Fixpoint replace (old : N) (new : str) (s : str) : str :=
  match s with
  | [] => []
  | c :: s' => (if N.eqb c old then new else [c]) ++ replace old new s'
  end.

(** [len(s)] *)
Definition len (s : str) : Z := Z.of_nat (List.length s).

(** [str(n)] for an [int]. *)
Definition str_of_int (n : Z) : str := py (NilZero.string_of_int (Z.to_int n)).

(** Case folding of ASCII text: what [str.lower] does on a string whose
    code points are all below 128. *)
Definition ascii_lower_cp (c : N) : N :=
  if ((65 <=? c) && (c <=? 90))%N then (c + 32)%N else c.

Definition ascii_lower (s : str) : str := map ascii_lower_cp s.

(** Sub-string relation, the meaning of [k in s]. *)
Definition substr (k s : str) : Prop := exists pre post, s = pre ++ k ++ post.

End PyStr.
Export PyStr.

(* ================================================================== *)
(** ** Exceptions *)

Inductive exn : Type :=
| KeyError (key : string)
| TypeError
| ServiceError (code : N)          (* any failure of the completion call *)
| HTTPException (status : Z) (detail : exn).

Inductive result (A : Type) : Type :=
| Ok (a : A)
| Raise (e : exn).
Arguments Ok {A} a.
Arguments Raise {A} e.

Definition bind {A B} (r : result A) (k : A -> result B) : result B :=
  match r with
  | Ok a => k a
  | Raise e => Raise e
  end.

Notation "x <- r ;; k" := (bind r (fun x => k))
  (at level 61, r at next level, right associativity).

(** [try: body  except Exception: handler] *)
Definition try_except {A} (body : result A) (handler : exn -> result A) : result A :=
  match body with
  | Ok a => Ok a
  | Raise e => handler e
  end.

(* ================================================================== *)
(** ** Python values and dictionaries *)

Inductive pyval : Type :=
| VInt (n : Z)
| VStr (s : str)
| VList (l : list str)
| VTime (t : Z)                    (* a [datetime] *)
| VNone.

(** A [dict] with literal keys, in insertion order. *)
Definition dict := list (string * pyval).

(** [d[k]] *)
Fixpoint getitem (d : dict) (k : string) : result pyval :=
  match d with
  | [] => Raise (KeyError k)
  | (k', v) :: d' => if String.eqb k' k then Ok v else getitem d' k
  end.

(** [v > 0]: defined between two [int]s only. *)
Definition gt0 (v : pyval) : result bool :=
  match v with
  | VInt n => Ok (n >? 0)%Z
  | _ => Raise TypeError
  end.

(** Truth value of [v] in an [if]. *)
Definition truthy (v : pyval) : bool :=
  match v with
  | VInt n => negb (n =? 0)%Z
  | VStr s => negb (str_eqb s [])
  | VList l => match l with [] => false | _ :: _ => true end
  | VTime _ => true
  | VNone => false
  end.

(** [sep.join(v)]: [v] has to be an iterable of strings; a string iterates
    over its code points. *)
Definition join_val (sep : str) (v : pyval) : result str :=
  match v with
  | VList l => Ok (join sep l)
  | VStr s => Ok (join sep (map (fun c => [c]) s))
  | _ => Raise TypeError
  end.

(** [v == w] *)
Definition py_eq (v w : pyval) : bool :=
  match v, w with
  | VInt a, VInt b => (a =? b)%Z
  | VStr a, VStr b => str_eqb a b
  | VList a, VList b =>
      Nat.eqb (List.length a) (List.length b)
      && forallb (fun p => str_eqb (fst p) (snd p)) (combine a b)
  | VTime a, VTime b => (a =? b)%Z
  | VNone, VNone => true
  | _, _ => false
  end.

(** A word-count dictionary [{word: int}], in insertion order. *)
Definition counter := list (str * Z).

(** [d.get(k, default)] *)
Fixpoint dict_get (d : counter) (k : str) (default : Z) : Z :=
  match d with
  | [] => default
  | (k', v) :: d' => if str_eqb k' k then v else dict_get d' k default
  end.

(** [d[k] = v]: an existing key keeps its place, a new key goes last. *)
Fixpoint dict_set (d : counter) (k : str) (v : Z) : counter :=
  match d with
  | [] => [(k, v)]
  | (k', v') :: d' =>
      if str_eqb k' k then (k', v) :: d' else (k', v') :: dict_set d' k v
  end.

(** [sorted(l, key=key, reverse=True)]: the stable sort by descending key.
    An element is placed before the first one whose key is not larger, so
    that equal keys keep the order they had in [l]. *)
Fixpoint insert_desc {A} (key : A -> Z) (x : A) (l : list A) : list A :=
  match l with
  | [] => [x]
  | y :: l' => if (key y <=? key x)%Z then x :: y :: l'
               else y :: insert_desc key x l'
  end.

Fixpoint sorted_desc {A} (key : A -> Z) (l : list A) : list A :=
  match l with
  | [] => []
  | x :: l' => insert_desc key x (sorted_desc key l')
  end.

(** [sum(l)] *)
Definition py_sum (l : list Z) : Z := fold_left Z.add l 0%Z.

(* ================================================================== *)
(** ** models.py: the two tables *)

Record Conversation : Type := {
  c_id : Z;
  c_user_id : str;
  c_created_at : Z;
  c_updated_at : Z
}.

Record Message : Type := {
  m_id : Z;
  m_user_id : str;
  m_conversation_id : Z;
  m_role : str;
  m_content : str;
  m_timestamp : Z
}.

(** The session: both tables in insertion order and the two primary-key
    sequences. *)
Record DB : Type := {
  conversations : list Conversation;
  messages : list Message;
  conversation_seq : Z;
  message_seq : Z
}.

(** One element of the list returned by [get_conversation_history]. *)
Record Turn : Type := {
  t_role : str;
  t_content : str;
  t_timestamp : Z
}.

(** The dictionary returned by [get_user_conversation_summary]. *)
Record Summary : Type := {
  total_conversations : Z;
  total_messages : Z;
  first_conversation : option Z;
  last_conversation : option Z
}.

(** The time stamps the three inserts of one request receive. *)
Record Clock : Type := {
  at_conversation : Z;
  at_user_message : Z;
  at_assistant_message : Z
}.

(* ================================================================== *)
(** ** database_service.py *)

(** [query(Conversation).filter(Conversation.user_id == user_id).first()] *)
Definition first_conversation_of (db : DB) (user_id : str) : option Conversation :=
  find (fun c => str_eqb (c_user_id c) user_id) (conversations db).

Definition get_or_create_conversation (db : DB) (user_id : str) (now : Z)
  : DB * Conversation :=
  match first_conversation_of db user_id with
  | Some conversation => (db, conversation)
  | None =>
      let conversation :=
        {| c_id := conversation_seq db + 1; c_user_id := user_id;
           c_created_at := now; c_updated_at := now |} in
      ({| conversations := conversations db ++ [conversation];
          messages := messages db;
          conversation_seq := conversation_seq db + 1;
          message_seq := message_seq db |}, conversation)
  end.

Definition save_message (db : DB) (user_id : str) (conversation_id : Z)
    (role content : str) (now : Z) : DB * Message :=
  let message :=
    {| m_id := message_seq db + 1; m_user_id := user_id;
       m_conversation_id := conversation_id; m_role := role;
       m_content := content; m_timestamp := now |} in
  ({| conversations := conversations db;
      messages := messages db ++ [message];
      conversation_seq := conversation_seq db;
      message_seq := message_seq db + 1 |}, message).

(** [.order_by(Message.timestamp.desc()).limit(limit).all()]; rows with the
    same time stamp are taken in table order. *)
Definition newest (limit : nat) (rows : list Message) : list Message :=
  firstn limit (sorted_desc m_timestamp rows).

Definition get_conversation_history (db : DB) (user_id : str) (limit : nat)
  : list Turn :=
  match first_conversation_of db user_id with
  | None => []
  | Some conversation =>
      let messages :=
        newest limit
          (filter (fun m => (m_conversation_id m =? c_id conversation)%Z)
                  (messages db)) in
      map (fun msg => {| t_role := m_role msg; t_content := m_content msg;
                         t_timestamp := m_timestamp msg |})
          (rev messages)
  end.

Definition get_user_all_conversations (db : DB) (user_id : str) (limit : nat)
  : list Turn :=
  get_conversation_history db user_id limit.

Definition positive_words : list str :=
  [py "good"; py "great"; py "happy"; py "better"; py "improved";
   py "thanks"; py "helpful"; py "positive"; py "progress"].

Definition negative_words : list str :=
  [py "bad"; py "sad"; py "depressed"; py "anxious"; py "worried";
   py "struggling"; py "difficult"; py "negative"; py "hopeless"].

(** The loop [for word in words: if len(word) > 3: word_freq[word] = ...]. *)
Definition count_word (word_freq : counter) (word : str) : counter :=
  if (len word >? 3)%Z
  then dict_set word_freq word (dict_get word_freq word 0 + 1)
  else word_freq.

Definition build_word_freq (words : list str) : counter :=
  fold_left count_word words [].

(** [sorted(word_freq.items(), key=lambda x: x[1], reverse=True)[:5]],
    then the keys. *)
Definition top_topics (word_freq : counter) : list str :=
  map fst (firstn 5 (sorted_desc snd word_freq)).

(** [sum(1 for word in words if word in vocabulary)] *)
Definition count_in (vocabulary words : list str) : Z :=
  py_sum (map (fun _ => 1%Z) (filter (fun word => mem word vocabulary) words)).

(** The user-role rows of one conversation, newest first, at most 50. *)
Definition user_messages_of (db : DB) (conversation : Conversation) : list Message :=
  newest 50
    (filter (fun m => (m_conversation_id m =? c_id conversation)%Z
                      && str_eqb (m_role m) (py "user"))
            (messages db)).

(** [query(Message).filter(Message.user_id == user_id).count()] *)
Definition count_user_rows (db : DB) (user_id : str) : Z :=
  Z.of_nat
    (List.length (filter (fun m => str_eqb (m_user_id m) user_id) (messages db))).

Definition empty_analysis : dict :=
  [("message_count", VInt 0); ("topics", VList []);
   ("sentiment", VStr (py "neutral"))]%string.

Section Runtime.

(** [str.lower] of the runtime. *)
Variable lower : str -> str.

(** [" ".join([msg.content.lower() for msg in user_messages]).split()] *)
Definition words_of (user_messages : list Message) : list str :=
  split (join (py " ") (map (fun msg => lower (m_content msg)) user_messages)).

Definition get_user_sentiment_history (db : DB) (user_id : str) : dict :=
  match first_conversation_of db user_id with
  | None => empty_analysis
  | Some conversation =>
      let user_messages := user_messages_of db conversation in
      let message_count := Z.of_nat (List.length user_messages) in
      if (message_count =? 0)%Z then empty_analysis
      else
        let words := words_of user_messages in
        let word_freq := build_word_freq words in
        let topics := top_topics word_freq in
        let positive_count := count_in positive_words words in
        let negative_count := count_in negative_words words in
        let sentiment :=
          if (positive_count >? negative_count)%Z then py "positive"
          else if (negative_count >? positive_count)%Z then py "negative"
          else py "neutral" in
        let total_messages := count_user_rows db user_id in
        [("message_count", VInt message_count);
         ("total_messages", VInt total_messages);
         ("topics", VList topics);
         ("sentiment", VStr sentiment);
         ("last_message_time",
           match user_messages with
           | msg :: _ => VTime (m_timestamp msg)
           | [] => VNone
           end);
         ("engagement_level",
           VStr (if (total_messages >? 20)%Z then py "high"
                 else if (total_messages >? 10)%Z then py "medium"
                 else py "low"))]%string
  end.

Definition get_user_conversation_summary (db : DB) (user_id : str) : Summary :=
  match first_conversation_of db user_id with
  | None =>
      {| total_conversations := 0; total_messages := 0;
         first_conversation := None; last_conversation := None |}
  | Some conversation =>
      let message_count :=
        Z.of_nat
          (List.length
             (filter (fun m => (m_conversation_id m =? c_id conversation)%Z)
                     (messages db))) in
      {| total_conversations := 1; total_messages := message_count;
         first_conversation := Some (c_created_at conversation);
         last_conversation := Some (c_updated_at conversation) |}
  end.


(* ================================================================== *)
(** ** ai_service.py *)

(** [format(v)] inside an f-string, as the runtime prints a value. *)
Variable py_format : pyval -> str.

(** [self.model.generate_content(prompt).text]: the completion service,
    which returns a text or raises. *)
Variable generate_content : str -> result str.

Definition nl : str := [10%N].

Definition system_prompt : str :=
  py "You are a warm, supportive, and helpful assistant trained to support users with mental health "
  ++ py "and addiction recovery. You are not a therapist, but you offer empathetic, kind, and motivating conversation. "
  ++ py "Always maintain a supportive and non-judgmental tone. Personalize your responses based on the user's history and patterns.".

(** The lines appended inside [if user_analysis["total_messages"] > 0:]. *)
Definition profile_lines (user_analysis : dict) (total : pyval) : result (list str) :=
  engagement <- getitem user_analysis "engagement_level" ;;
  sentiment <- getitem user_analysis "sentiment" ;;
  let lines :=
    [py "- Total messages: " ++ py_format total;
     py "- Engagement level: " ++ py_format engagement;
     py "- Overall sentiment trend: " ++ py_format sentiment] in
  topics <- getitem user_analysis "topics" ;;
  lines <- (if truthy topics
            then joined <- join_val (py ", ") topics ;;
                 Ok (lines ++ [py "- Common topics discussed: " ++ joined])
            else Ok lines) ;;
  last <- getitem user_analysis "last_message_time" ;;
  Ok (if truthy last
      then lines ++ [py "- Last message was sent recently"]
      else lines).

(** [conversation_history[-6:]] *)
Definition last6 (conversation_history : list Turn) : list Turn :=
  skipn (List.length conversation_history - 6) conversation_history.

Definition history_line (msg : Turn) : str :=
  let role := if str_eqb (t_role msg) (py "user") then py "User" else py "Assistant" in
  role ++ py ": " ++ t_content msg.

(** The list [context_parts] at the end of [build_contextual_prompt]. *)
Definition context_parts (user_id user_message : str)
    (conversation_history : list Turn) (user_analysis : dict) (db : DB)
  : result (list str) :=
  let parts := [system_prompt] in
  let parts := parts ++ [nl ++ py "User Profile (ID: " ++ user_id ++ py "):"] in
  total <- getitem user_analysis "total_messages" ;;
  positive <- gt0 total ;;
  parts <- (if positive : bool
            then lines <- profile_lines user_analysis total ;; Ok (parts ++ lines)
            else Ok parts) ;;
  let user_summary := get_user_conversation_summary db user_id in
  let parts :=
    if (total_conversations user_summary >? 0)%Z
    then parts ++ [py "- User has "
                   ++ py_format (VInt (total_conversations user_summary))
                   ++ py " total conversations"]
    else parts in
  let parts :=
    match conversation_history with
    | [] => parts
    | _ :: _ =>
        (parts ++ [nl ++ py "Recent Conversation History:"])
        ++ map history_line (last6 conversation_history)
    end in
  let parts := parts ++ [nl ++ py "Current User Message: " ++ user_message] in
  let parts := parts ++ [nl ++ py "Assistant:"] in
  Ok parts.

Definition build_contextual_prompt (user_id user_message : str)
    (conversation_history : list Turn) (user_analysis : dict) (db : DB)
  : result str :=
  parts <- context_parts user_id user_message conversation_history user_analysis db ;;
  Ok (join nl parts).

(** The part that opens the user-profile section. *)
Definition header_line (uid : str) : str :=
  nl ++ py "User Profile (ID: " ++ uid ++ py "):".

(** What [build_contextual_prompt] appends after the user-profile section. *)
Definition closing_parts (uid msg : str) (history : list Turn) (db : DB) : list str :=
  (if (total_conversations (get_user_conversation_summary db uid) >? 0)%Z
   then [py "- User has "
         ++ py_format (VInt (total_conversations (get_user_conversation_summary db uid)))
         ++ py " total conversations"]
   else [])
  ++ match history with
     | [] => []
     | _ :: _ => (nl ++ py "Recent Conversation History:")
                 :: map history_line (last6 history)
     end
  ++ [nl ++ py "Current User Message: " ++ msg; nl ++ py "Assistant:"].

Definition short_reply_fallback : str :=
  py "I understand what you're saying. Could you tell me more about how you're feeling?".

Definition apology_fallback : str :=
  py "I'm here to listen and support you. I'm experiencing some technical difficulties right now, "
  ++ py "but I want you to know that your feelings are valid and important. "
  ++ py "Would you like to try sharing again?".

Definition generate_response (user_id user_message : str)
    (conversation_history : list Turn) (user_analysis : dict) (db : DB)
  : result str :=
  try_except
    (full_prompt <- build_contextual_prompt user_id user_message
                      conversation_history user_analysis db ;;
     text <- generate_content full_prompt ;;
     let ai_response := strip text in
     let ai_response :=
       if negb (truthy (VStr ai_response)) || (len ai_response <? 10)%Z
       then short_reply_fallback
       else ai_response in
     Ok ai_response)
    (fun _ => Ok apology_fallback).

Definition crisis_keywords : list str :=
  [py "suicide"; py "kill myself"; py "end it all"; py "don't want to live";
   py "give up"; py "no reason to live"].

Definition urgent_keywords : list str :=
  [py "emergency"; py "urgent"; py "help now"; py "crisis"; py "panic";
   py "overwhelmed"; py "can't cope"].

Definition positive_keywords : list str :=
  [py "better"; py "improved"; py "happy"; py "good"; py "progress";
   py "achievement"; py "positive"; py "grateful"].

Definition negative_keywords : list str :=
  [py "sad"; py "depressed"; py "anxious"; py "worried"; py "struggling";
   py "difficult"; py "negative"; py "hopeless"].

Definition wellness_keywords : list str :=
  [py "therapy"; py "meditation"; py "exercise"; py "breathing"; py "coping";
   py "recovery"; py "treatment"].

(** The dictionary returned by [analyze_user_message]; its keys are fixed. *)
Record MessageAnalysis : Type := {
  is_crisis : bool;
  is_urgent : bool;
  is_positive : bool;
  is_negative : bool;
  is_wellness : bool;
  message_length : Z;
  has_question : bool;
  urgency_level : str
}.

Definition analyze_user_message (message : str) : MessageAnalysis :=
  let message_lower := lower message in
  let is_crisis := any_in crisis_keywords message_lower in
  let is_urgent := any_in urgent_keywords message_lower in
  let is_positive := any_in positive_keywords message_lower in
  let is_negative := any_in negative_keywords message_lower in
  let is_wellness := any_in wellness_keywords message_lower in
  {| is_crisis := is_crisis;
     is_urgent := is_urgent;
     is_positive := is_positive;
     is_negative := is_negative;
     is_wellness := is_wellness;
     message_length := len message;
     has_question := contains (py "?") message;
     urgency_level := if is_crisis then py "high"
                      else if is_urgent then py "medium" else py "low" |}.

Definition first_time_greeting : str :=
  py "Hello! I'm here to support you. How are you feeling today?".

Definition welcome_back_greeting : str :=
  py "Welcome back! I'm glad to see you again. How have you been since we last talked?".

Definition positive_mood_greeting : str :=
  py "Hello! I noticed you've been in a positive mood lately. How are you doing today?".

Definition listening_greeting : str :=
  py "Hi there. I'm here to listen and support you. What's on your mind today?".

Definition default_greeting : str :=
  py "Hello! How are you feeling today? I'm here to listen and support you.".

Definition get_personalized_greeting (user_id : str) (user_analysis : dict)
  : result str :=
  total <- getitem user_analysis "total_messages" ;;
  if py_eq total (VInt 0) then Ok first_time_greeting
  else
    engagement <- getitem user_analysis "engagement_level" ;;
    if py_eq engagement (VStr (py "high")) then Ok welcome_back_greeting
    else
      sentiment <- getitem user_analysis "sentiment" ;;
      if py_eq sentiment (VStr (py "positive")) then Ok positive_mood_greeting
      else if py_eq sentiment (VStr (py "negative")) then Ok listening_greeting
      else Ok default_greeting.

(* ================================================================== *)
(** ** main.py *)

Record MessageRequest : Type := {
  message : str;
  user_id : str
}.

(** The dictionary [context_analysis]; its keys are fixed. *)
Record ContextAnalysis : Type := {
  ca_user_id : str;
  ca_total_messages : pyval;
  ca_sentiment_trend : pyval;
  ca_engagement_level : pyval;
  ca_common_topics : pyval;
  ca_current_message_analysis : MessageAnalysis
}.

Record MessageResponse : Type := {
  response : str;
  response_html : str;
  r_user_id : str;
  message_id : Z;
  context_analysis : option ContextAnalysis
}.

Definition executor_failure_reply : str :=
  py "I'm sorry, I'm having trouble responding right now. Please try again later.".

(** The hotline notice; it starts with two line feeds and the warning sign
    U+26A0 U+FE0F. *)
Definition crisis_notice : str :=
  [10; 10; 9888; 65039]%N
  ++ py " If you're having thoughts of self-harm, please contact the National Suicide Prevention Lifeline at 988 or 1-800-273-8255. You're not alone, and help is available 24/7.".

(** Steps of [chat_endpoint] up to the call of the completion gateway: the
    session after the user message is saved, the conversation, the history
    and the analysis handed to [generate_response]. *)
Definition chat_context (db : DB) (req : MessageRequest) (clock : Clock)
  : DB * Conversation * list Turn * dict :=
  let '(db, conversation) :=
    get_or_create_conversation db (user_id req) (at_conversation clock) in
  let '(db, user_message) :=
    save_message db (user_id req) (c_id conversation) (py "user") (message req)
                 (at_user_message clock) in
  let conversation_history := get_conversation_history db (user_id req) 10 in
  let user_analysis := get_user_sentiment_history db (user_id req) in
  (db, conversation, conversation_history, user_analysis).

(** [ai_response] as it is when the assistant message is saved. *)
Definition gateway_reply (db : DB) (req : MessageRequest)
    (conversation_history : list Turn) (user_analysis : dict) : str :=
  match generate_response (user_id req) (message req) conversation_history
                          user_analysis db with
  | Ok ai_response => ai_response
  | Raise _ => executor_failure_reply
  end.

Definition chat_endpoint (db : DB) (req : MessageRequest) (clock : Clock)
  : DB * result MessageResponse :=
  let '(db, conversation, conversation_history, user_analysis) :=
    chat_context db req clock in
  let current_message_analysis := analyze_user_message (message req) in
  let ai_response := gateway_reply db req conversation_history user_analysis in
  let '(db, assistant_message) :=
    save_message db (user_id req) (c_id conversation) (py "assistant")
                 ai_response (at_assistant_message clock) in
  (db,
   try_except
     (total <- getitem user_analysis "total_messages" ;;
      sentiment <- getitem user_analysis "sentiment" ;;
      engagement <- getitem user_analysis "engagement_level" ;;
      topics <- getitem user_analysis "topics" ;;
      let context_analysis :=
        {| ca_user_id := user_id req;
           ca_total_messages := total;
           ca_sentiment_trend := sentiment;
           ca_engagement_level := engagement;
           ca_common_topics := topics;
           ca_current_message_analysis := current_message_analysis |} in
      let ai_response :=
        if is_crisis current_message_analysis
        then ai_response ++ crisis_notice
        else ai_response in
      let ai_response_html := replace 10 (py "<br>") ai_response in
      Ok {| response := ai_response;
            response_html := ai_response_html;
            r_user_id := user_id req;
            message_id := m_id assistant_message;
            context_analysis := Some context_analysis |})
     (fun e => Raise (HTTPException 500 e))).

(** [GET /user/{user_id}/analysis] *)
Record UserAnalysisResponse : Type := {
  ua_user_id : str;
  ua_analysis : dict;
  ua_summary : Summary
}.

Definition get_user_analysis (user_id : str) (db : DB) : UserAnalysisResponse :=
  let analysis := get_user_sentiment_history db user_id in
  let summary := get_user_conversation_summary db user_id in
  {| ua_user_id := user_id; ua_analysis := analysis; ua_summary := summary |}.

End Runtime.

(* ================================================================== *)
(** ** Notions used to state the properties *)

Definition str_eq_dec : forall a b : str, {a = b} + {a <> b} :=
  list_eq_dec N.eq_dec.

(** Number of tokens of [words] equal to [w]. *)
Definition occurrences (w : str) (words : list str) : Z :=
  Z.of_nat (count_occ str_eq_dec words w).

(** Number of tokens of [words] that are, as whole tokens, a word of
    [vocabulary]. *)
Definition tally (vocabulary words : list str) : Z :=
  Z.of_nat
    (List.length
       (filter (fun w => if in_dec str_eq_dec w vocabulary then true else false)
               words)).

(** A token: a non-empty run of code points none of which is white space. *)
Definition is_token (w : str) : Prop :=
  w <> [] /\ forall c, In c w -> isspace c = false.

(** The code points of [s] that are not white space. *)
Definition without_spaces (s : str) : str :=
  filter (fun c => negb (isspace c)) s.

(** The tokens of more than 3 code points. *)
Definition long_words (words : list str) : list str :=
  filter (fun w => Nat.ltb 3 (List.length w)) words.

(** The distinct tokens of [words] that are not in [seen], each at the place
    of its first appearance. *)
Fixpoint first_seen (seen words : list str) : list str :=
  match words with
  | [] => []
  | w :: rest =>
      if in_dec str_eq_dec w seen then first_seen seen rest
      else w :: first_seen (seen ++ [w]) rest
  end.

(** [l] is ordered by non-increasing key. *)
Definition descending {A} (key : A -> Z) (l : list A) : Prop :=
  StronglySorted (fun a b => (key b <= key a)%Z) l.

(** The elements of [l] whose key is [n], in the order they have in [l]. *)
Definition with_key {A} (key : A -> Z) (n : Z) (l : list A) : list A :=
  filter (fun a => (key a =? n)%Z) l.

(** The rows of one conversation written by the user. *)
Definition user_rows (db : DB) (conversation : Conversation) : list Message :=
  filter (fun m => (m_conversation_id m =? c_id conversation)%Z
                   && str_eqb (m_role m) (py "user"))
         (messages db).

(** The lines of the user-profile section of a prompt start with one of
    these texts. *)
Definition profile_prefixes : list str :=
  [py "- Total messages: "; py "- Engagement level: ";
   py "- Overall sentiment trend: "; py "- Common topics discussed: ";
   py "- Last message was sent recently"].

Definition is_profile_line (part : str) : bool :=
  existsb (fun prefix => startswith prefix part) profile_prefixes.

(** Some part of the prompt is a line of the user-profile section. *)
Definition has_profile_section (parts : list str) : bool :=
  existsb is_profile_line parts.

(** HTML escaping in the words of the specification: the characters that
    are special in HTML are replaced by their entities. *)
Definition spec_html_escape (text : str) : str :=
  flat_map (fun c =>
              if N.eqb c 38 then py "&amp;"
              else if N.eqb c 60 then py "&lt;"
              else if N.eqb c 62 then py "&gt;"
              else if N.eqb c 34 then py "&quot;"
              else if N.eqb c 39 then py "&#x27;"
              else [c]) text.

(** The HTML variant of a response in the words of the specification:
    escaped, then line feeds turned into line breaks. *)
Definition spec_response_html (text : str) : str :=
  replace 10 (py "<br>") (spec_html_escape text).

(** A store that satisfies the constraints of [models.py] and in which
    every message lies in the conversation of its own user: user ids of
    conversations are unique, primary keys are unique and were issued by
    the sequences, and the conversation a message refers to exists and
    belongs to the user the message is recorded for. *)
Record consistent (db : DB) : Prop := {
  unique_users : NoDup (map c_user_id (conversations db));
  unique_conversation_ids : NoDup (map c_id (conversations db));
  issued_conversation_ids :
    forall c, In c (conversations db) -> (c_id c <= conversation_seq db)%Z;
  unique_message_ids : NoDup (map m_id (messages db));
  issued_message_ids :
    forall m, In m (messages db) -> (m_id m <= message_seq db)%Z;
  message_owner :
    forall m, In m (messages db) ->
      exists c, In c (conversations db) /\
                c_id c = m_conversation_id m /\ c_user_id c = m_user_id m
}.

(** The rows of one conversation, whatever their role. *)
Definition conversation_rows (db : DB) (conversation : Conversation) : list Message :=
  filter (fun m => (m_conversation_id m =? c_id conversation)%Z) (messages db).

(** The turn a row is shown as in a history. *)
Definition turn_of (msg : Message) : Turn :=
  {| t_role := m_role msg; t_content := m_content msg;
     t_timestamp := m_timestamp msg |}.

(** [l] is ordered by non-decreasing key. *)
Definition ascending {A} (key : A -> Z) (l : list A) : Prop :=
  StronglySorted (fun a b => (key a <= key b)%Z) l.

(** Rank of an engagement level. *)
Definition level_rank (level : pyval) : Z :=
  match level with
  | VStr s => if str_eqb s (py "high") then 2
              else if str_eqb s (py "medium") then 1 else 0
  | _ => 0
  end.

(** The store after a sequence of /chat requests, each with its clock and
    with the completion service as it answered during that request. *)
Definition serve (lower : str -> str) (py_format : pyval -> str)
    (requests : list (MessageRequest * Clock * (str -> result str))) (db : DB) : DB :=
  fold_left
    (fun db request =>
       let '(req, clock, service) := request in
       fst (chat_endpoint lower py_format service db req clock))
    requests db.

(* ================================================================== *)
(** ** Concrete runtimes and stores for the examples *)

(** [format] on the values whose printed form is fixed by the language:
    an [int] in decimal, a [str] as it is. *)
Definition basic_format (v : pyval) : str :=
  match v with
  | VInt n => str_of_int n
  | VStr s => s
  | VList l => py "[" ++ join (py ", ") l ++ py "]"
  | VTime t => py "t" ++ str_of_int t
  | VNone => py "None"
  end.

(** A completion service that answers every prompt the same way. *)
Definition canned (answer : result str) : str -> result str := fun _ => answer.

Definition empty_db : DB :=
  {| conversations := []; messages := []; conversation_seq := 0; message_seq := 0 |}.

Definition noon : Clock :=
  {| at_conversation := 100; at_user_message := 101; at_assistant_message := 102 |}.

(** A store with one user who wrote twice and was answered once. *)
Definition sample_db : DB :=
  let '(db, c) := get_or_create_conversation empty_db (py "ana") 10 in
  let db := fst (save_message db (py "ana") (c_id c) (py "user")
                   (py "I'm grateful and things are better") 11) in
  let db := fst (save_message db (py "ana") (c_id c) (py "assistant")
                   (py "That is good to hear, tell me more.") 12) in
  fst (save_message db (py "ana") (c_id c) (py "user")
         (py "Sleep helps, walking helps, SLEEP and walking") 13).

Definition sample_conversation : Conversation :=
  {| c_id := 1; c_user_id := py "ana"; c_created_at := 10; c_updated_at := 10 |}.

(** [n] more user messages in conversation 1 of "ana". *)
Fixpoint post_many (n : nat) (db : DB) : DB :=
  match n with
  | O => db
  | S k =>
      post_many k
        (fst (save_message db (py "ana") 1 (py "user") (py "checking in")
                (20 + Z.of_nat k)))
  end.

(* ================================================================== *)
(** * Properties *)

(** ** Strings *)

Lemma str_eqb_eq (a b : str) : str_eqb a b = true <-> a = b.
Proof.
  revert b; induction a as [|x a IH]; intros [|y b]; simpl; split;
    try congruence; try reflexivity.
  - intros H. apply andb_true_iff in H as [Hx Hab].
    apply N.eqb_eq in Hx. apply IH in Hab. now subst.
  - intros H. injection H as -> ->.
    rewrite N.eqb_refl. simpl. now apply IH.
Qed.

Lemma str_eqb_refl (a : str) : str_eqb a a = true.
Proof. now apply str_eqb_eq. Qed.

Lemma str_eqb_neq (a b : str) : str_eqb a b = false <-> a <> b.
Proof.
  split.
  - intros H E. apply str_eqb_eq in E. congruence.
  - intros H. destruct (str_eqb a b) eqn:E; [|reflexivity].
    apply str_eqb_eq in E. contradiction.
Qed.

Lemma str_eqb_sym (a b : str) : str_eqb a b = str_eqb b a.
Proof.
  destruct (str_eqb b a) eqn:E.
  - apply str_eqb_eq in E. subst. apply str_eqb_refl.
  - apply str_eqb_neq. apply str_eqb_neq in E. congruence.
Qed.

Lemma startswith_spec (p s : str) :
  startswith p s = true <-> exists t, s = p ++ t.
Proof.
  revert s; induction p as [|x p IH]; intros s; simpl.
  - split; [intros _; now exists s | reflexivity].
  - destruct s as [|y s].
    + split; [discriminate | intros [t Ht]; discriminate].
    + rewrite andb_true_iff, N.eqb_eq, IH. split.
      * intros [-> [t ->]]. now exists t.
      * intros [t Ht]. injection Ht as -> ->. split; [reflexivity | now exists t].
Qed.

Lemma contains_spec (k s : str) : contains k s = true <-> substr k s.
Proof.
  unfold substr. induction s as [|c s IH].
  - simpl. rewrite orb_false_r, startswith_spec. split.
    + intros [t Ht]. now exists [], t.
    + intros [pre [post H]]. destruct pre; [now exists post | discriminate].
  - cbn [contains]. rewrite orb_true_iff, startswith_spec, IH. split.
    + intros [[t Ht] | [pre [post H]]].
      * now exists [], t.
      * exists (c :: pre), post. simpl. now rewrite H.
    + intros [[|x pre] [post H]].
      * left. now exists post.
      * right. injection H as -> H. now exists pre, post.
Qed.

Lemma any_in_spec (keywords : list str) (s : str) :
  any_in keywords s = true <-> exists k, In k keywords /\ substr k s.
Proof.
  unfold any_in. rewrite existsb_exists.
  split; intros [k [Hk H]]; exists k; split; trivial; now apply contains_spec.
Qed.

Lemma any_in_false (keywords : list str) (s : str) :
  any_in keywords s = false <-> ~ exists k, In k keywords /\ substr k s.
Proof.
  rewrite <- any_in_spec. destruct (any_in keywords s); split; congruence.
Qed.

Lemma mem_spec (w : str) (l : list str) : mem w l = true <-> In w l.
Proof.
  unfold mem. rewrite existsb_exists. split.
  - intros [x [Hx E]]. apply str_eqb_eq in E. now subst.
  - intros H. exists w. split; [assumption | apply str_eqb_refl].
Qed.

Lemma flush_tokens (cur : str) (rest : list str) :
  (forall c, In c cur -> isspace c = false) ->
  Forall is_token rest -> Forall is_token (flush cur rest).
Proof.
  intros Hcur Hrest. destruct cur as [|c cur]; simpl; [assumption|].
  constructor; [|assumption]. split.
  - intros E. apply (f_equal (@List.length N)) in E.
    rewrite length_app in E. simpl in E. lia.
  - intros x Hx. apply Hcur. apply in_rev. exact Hx.
Qed.

Lemma flush_concat (cur : str) (rest : list str) :
  List.concat (flush cur rest) = rev cur ++ List.concat rest.
Proof. destruct cur; reflexivity. Qed.

Lemma split_from_tokens (s cur : str) :
  (forall c, In c cur -> isspace c = false) ->
  Forall is_token (split_from cur s).
Proof.
  revert cur. induction s as [|c s IH]; intros cur Hcur; simpl.
  - apply flush_tokens; [assumption | constructor].
  - destruct (isspace c) eqn:E.
    + apply flush_tokens; [assumption|]. apply IH. intros x [].
    + apply IH. intros x [<-|Hx]; [assumption | now apply Hcur].
Qed.

Lemma split_from_concat (s cur : str) :
  List.concat (split_from cur s) = rev cur ++ without_spaces s.
Proof.
  revert cur. induction s as [|c s IH]; intros cur; simpl.
  - now rewrite flush_concat.
  - destruct (isspace c) eqn:E; simpl.
    + now rewrite flush_concat, IH.
    + rewrite IH. simpl. now rewrite <- app_assoc.
Qed.

(** [split()] returns tokens, and together they are the text without its
    white space. *)
Lemma split_tokens (s : str) :
  Forall is_token (split s) /\ List.concat (split s) = without_spaces s.
Proof.
  split.
  - apply split_from_tokens. intros c [].
  - apply split_from_concat.
Qed.

Lemma lstrip_spec (s : str) :
  exists pre, s = pre ++ lstrip s /\ forallb isspace pre = true /\
              match lstrip s with [] => True | c :: _ => isspace c = false end.
Proof.
  induction s as [|c s [pre [Hs [Hpre Hhead]]]]; simpl.
  - now exists [].
  - destruct (isspace c) eqn:E.
    + exists (c :: pre). simpl. rewrite E, Hpre. repeat split; [congruence | assumption].
    + exists []. simpl. repeat split. assumption.
Qed.

(** [strip()] removes white space at both ends and nothing else. *)
Lemma strip_spec (s : str) :
  exists pre post,
    s = pre ++ strip s ++ post /\
    forallb isspace pre = true /\ forallb isspace post = true /\
    match strip s with [] => True | c :: _ => isspace c = false end /\
    match rev (strip s) with [] => True | c :: _ => isspace c = false end.
Proof.
  unfold strip, rstrip.
  destruct (lstrip_spec s) as [pre [Hs [Hpre Hhead]]].
  destruct (lstrip_spec (rev (lstrip s))) as [post [Hr [Hpost Hlast]]].
  exists pre, (rev post).
  assert (Hmid : lstrip s = rev (lstrip (rev (lstrip s))) ++ rev post).
  { rewrite <- rev_app_distr, <- Hr. now rewrite rev_involutive. }
  split; [now rewrite <- Hmid|].
  split; [assumption|].
  split.
  { rewrite forallb_forall in *. intros x Hx. apply Hpost. now apply in_rev. }
  split; [|now rewrite rev_involutive].
  destruct (rev (lstrip (rev (lstrip s)))) as [|c t] eqn:E; [exact I|].
  rewrite Hmid in Hhead. exact Hhead.
Qed.

(** ** The message classifier *)

Section Classifier.

Variable lower : str -> str.

(** C1.  [analyze_user_message] derives [urgency_level] by strict priority:
    the list of crisis phrases has 6 entries and the list of urgent keywords
    has 7; if the lower-cased message contains a crisis phrase the level is
    "high", whatever else it contains; otherwise, if it contains an urgent
    keyword, the level is "medium"; otherwise it is "low". *)
Theorem urgency_level_priority (msg : str) :
  List.length crisis_keywords = 6 /\ List.length urgent_keywords = 7 /\
  ((exists k, In k crisis_keywords /\ substr k (lower msg)) ->
     urgency_level (analyze_user_message lower msg) = py "high") /\
  (~ (exists k, In k crisis_keywords /\ substr k (lower msg)) ->
   (exists k, In k urgent_keywords /\ substr k (lower msg)) ->
     urgency_level (analyze_user_message lower msg) = py "medium") /\
  (~ (exists k, In k crisis_keywords /\ substr k (lower msg)) ->
   ~ (exists k, In k urgent_keywords /\ substr k (lower msg)) ->
     urgency_level (analyze_user_message lower msg) = py "low").
Proof.
  split; [reflexivity | split; [reflexivity |]].
  unfold analyze_user_message; cbn [urgency_level].
  repeat split.
  - intros H. apply any_in_spec in H. now rewrite H.
  - intros Hc Hu. apply any_in_false in Hc. apply any_in_spec in Hu.
    now rewrite Hc, Hu.
  - intros Hc Hu. apply any_in_false in Hc. apply any_in_false in Hu.
    now rewrite Hc, Hu.
Qed.

End Classifier.

(** ** The stable descending sort *)

Section Sorting.

Context {A : Type} (key : A -> Z).

Lemma insert_desc_perm (x : A) (l : list A) :
  Permutation (insert_desc key x l) (x :: l).
Proof.
  induction l as [|y l IH]; simpl.
  - apply Permutation_refl.
  - destruct (key y <=? key x)%Z.
    + apply Permutation_refl.
    + eapply perm_trans; [apply perm_skip, IH | apply perm_swap].
Qed.

Lemma sorted_desc_perm (l : list A) : Permutation (sorted_desc key l) l.
Proof.
  induction l as [|x l IH]; simpl.
  - apply perm_nil.
  - eapply perm_trans; [apply insert_desc_perm | now apply perm_skip].
Qed.

Lemma insert_desc_descending (x : A) (l : list A) :
  descending key l -> descending key (insert_desc key x l).
Proof.
  unfold descending. induction l as [|y l IH]; simpl; intros Hl.
  - constructor; constructor.
  - inversion Hl as [|? ? Hs Hall]; subst.
    destruct (key y <=? key x)%Z eqn:E.
    + apply Z.leb_le in E. constructor; [assumption|].
      constructor; [assumption|].
      eapply Forall_impl; [|exact Hall]. simpl. intros a Ha. lia.
    + apply Z.leb_gt in E. constructor; [now apply IH|].
      eapply Permutation_Forall.
      * apply Permutation_sym, insert_desc_perm.
      * constructor; [lia | assumption].
Qed.

Lemma sorted_desc_descending (l : list A) : descending key (sorted_desc key l).
Proof.
  induction l as [|x l IH]; simpl.
  - constructor.
  - now apply insert_desc_descending.
Qed.

Lemma insert_desc_with_key (n : Z) (x : A) (l : list A) :
  with_key key n (insert_desc key x l) = with_key key n (x :: l).
Proof.
  unfold with_key. induction l as [|y l IH]; simpl.
  - reflexivity.
  - destruct (key y <=? key x)%Z eqn:E; [reflexivity|].
    apply Z.leb_gt in E. simpl in *. rewrite IH.
    destruct (key x =? n)%Z eqn:Ex; [|reflexivity].
    apply Z.eqb_eq in Ex.
    destruct (key y =? n)%Z eqn:Ey; [|reflexivity].
    apply Z.eqb_eq in Ey. lia.
Qed.

(** Stability: elements with the same key leave the sort in the order they
    entered it. *)
Lemma sorted_desc_stable (n : Z) (l : list A) :
  with_key key n (sorted_desc key l) = with_key key n l.
Proof.
  induction l as [|x l IH]; simpl.
  - reflexivity.
  - rewrite insert_desc_with_key. unfold with_key in *. simpl.
    now rewrite IH.
Qed.

(** With pairwise distinct keys the descending arrangement of a list is
    unique: whatever order a sort gives to equal keys, the result is the
    same. *)
Lemma descending_unique (l1 l2 : list A) :
  Permutation l1 l2 -> descending key l1 -> descending key l2 ->
  NoDup (map key l1) -> l1 = l2.
Proof.
  unfold descending. revert l2.
  induction l1 as [|x l1 IH]; intros l2 Hp H1 H2 Hnd.
  - apply Permutation_nil in Hp. now subst.
  - destruct l2 as [|y l2].
    + apply Permutation_sym, Permutation_nil in Hp. discriminate.
    + inversion H1 as [|? ? H1' Hx]; subst.
      inversion H2 as [|? ? H2' Hy]; subst.
      inversion Hnd as [|? ? Hfresh Hnd']; subst.
      assert (E : x = y).
      { assert (Hxin : In x (y :: l2))
          by (apply (Permutation_in _ Hp); now left).
        assert (Hyin : In y (x :: l1))
          by (apply (Permutation_in _ (Permutation_sym Hp)); now left).
        destruct Hyin as [E|Hyin]; [exact E|].
        destruct Hxin as [E|Hxin]; [now symmetry|].
        rewrite Forall_forall in Hx, Hy.
        specialize (Hx y Hyin). specialize (Hy x Hxin).
        elim Hfresh. replace (key x) with (key y) by lia. now apply in_map. }
      subst y. f_equal. apply IH; trivial.
      eapply Permutation_cons_inv. exact Hp.
Qed.

End Sorting.

(** ** The word-frequency dictionary *)

Lemma dict_get_set (d : counter) (k k' : str) (v default : Z) :
  dict_get (dict_set d k v) k' default =
  if str_eqb k k' then v else dict_get d k' default.
Proof.
  induction d as [|[k0 v0] d IH]; simpl.
  - reflexivity.
  - destruct (str_eqb k0 k) eqn:E0; simpl.
    + apply str_eqb_eq in E0. subst k0.
      now destruct (str_eqb k k').
    + rewrite IH. destruct (str_eqb k0 k') eqn:E1; [|reflexivity].
      apply str_eqb_eq in E1. subst k0. now rewrite str_eqb_sym, E0.
Qed.

Lemma keys_dict_set (d : counter) (k : str) (v : Z) :
  map fst (dict_set d k v) =
  if in_dec str_eq_dec k (map fst d) then map fst d else map fst d ++ [k].
Proof.
  induction d as [|[k0 v0] d IH]; simpl.
  - reflexivity.
  - destruct (str_eqb k0 k) eqn:E0; simpl.
    + apply str_eqb_eq in E0. subst k0.
      destruct (str_eq_dec k k) as [E|N]; [reflexivity | now elim N].
    + apply str_eqb_neq in E0. rewrite IH.
      destruct (str_eq_dec k0 k) as [E|N]; [contradiction|].
      now destruct (in_dec str_eq_dec k (map fst d)).
Qed.

Lemma len_long (w : str) : (len w >? 3)%Z = Nat.ltb 3 (List.length w).
Proof.
  unfold len. destruct (Nat.ltb_spec 3 (List.length w)); lia.
Qed.

Lemma keys_fold_count_word (words : list str) (d : counter) :
  map fst (fold_left count_word words d) =
  map fst d ++ first_seen (map fst d) (long_words words).
Proof.
  revert d. induction words as [|w words IH]; intros d; simpl.
  - now rewrite app_nil_r.
  - rewrite IH. unfold count_word. rewrite len_long.
    destruct (Nat.ltb 3 (List.length w)); simpl; [|reflexivity].
    rewrite keys_dict_set.
    destruct (in_dec str_eq_dec w (map fst d)); [reflexivity|].
    now rewrite <- app_assoc.
Qed.

Lemma occurrences_cons (k w : str) (words : list str) :
  occurrences k (w :: words) =
  ((if str_eqb w k then 1 else 0) + occurrences k words)%Z.
Proof.
  unfold occurrences. simpl.
  destruct (str_eq_dec w k) as [E|N].
  - subst. rewrite str_eqb_refl. lia.
  - apply str_eqb_neq in N. rewrite N. lia.
Qed.

Lemma get_fold_count_word (words : list str) (d : counter) (k : str) :
  dict_get (fold_left count_word words d) k 0 =
  (dict_get d k 0 + occurrences k (long_words words))%Z.
Proof.
  revert d. induction words as [|w words IH]; intros d; simpl.
  - unfold occurrences. simpl. lia.
  - rewrite IH. unfold count_word. rewrite len_long.
    destruct (Nat.ltb 3 (List.length w)); simpl; [|reflexivity].
    rewrite dict_get_set, occurrences_cons.
    destruct (str_eqb w k) eqn:E; [|lia].
    apply str_eqb_eq in E. subst. lia.
Qed.

Lemma occurrences_long (k : str) (words : list str) :
  Nat.ltb 3 (List.length k) = true ->
  occurrences k (long_words words) = occurrences k words.
Proof.
  intros Hk. induction words as [|w words IH]; simpl; [reflexivity|].
  destruct (Nat.ltb 3 (List.length w)) eqn:Hw.
  - rewrite !occurrences_cons. now rewrite IH.
  - rewrite occurrences_cons, IH.
    destruct (str_eqb w k) eqn:E; [|reflexivity].
    apply str_eqb_eq in E. subst. congruence.
Qed.

Lemma first_seen_in (seen words : list str) (w : str) :
  In w (first_seen seen words) <-> In w words /\ ~ In w seen.
Proof.
  revert seen. induction words as [|x words IH]; intros seen; simpl.
  - tauto.
  - destruct (in_dec str_eq_dec x seen) as [Hx|Hx].
    + rewrite IH. split.
      * tauto.
      * intros [[E|H] N]; [subst; contradiction | tauto].
    + simpl. rewrite IH, in_app_iff. simpl. split.
      * intros [E | [H N]]; [subst; tauto | tauto].
      * intros [[E|H] N]; [tauto|].
        destruct (str_eq_dec x w); [tauto|]. right. tauto.
Qed.

Lemma first_seen_nodup (seen words : list str) : NoDup (first_seen seen words).
Proof.
  revert seen. induction words as [|x words IH]; intros seen; simpl.
  - constructor.
  - destruct (in_dec str_eq_dec x seen); [apply IH|].
    constructor; [|apply IH].
    rewrite first_seen_in, in_app_iff. simpl. tauto.
Qed.

Lemma dict_get_entry (d : counter) (k : str) (v : Z) :
  NoDup (map fst d) -> In (k, v) d -> dict_get d k 0 = v.
Proof.
  induction d as [|[k0 v0] d IH]; simpl; intros Hnd Hin; [contradiction|].
  inversion Hnd as [|? ? Hnot Hnd']; subst.
  destruct Hin as [E|Hin].
  - injection E as -> ->. now rewrite str_eqb_refl.
  - destruct (str_eqb k0 k) eqn:E0; [|now apply IH].
    apply str_eqb_eq in E0. subst k0. elim Hnot.
    change k with (fst (k, v)). now apply in_map.
Qed.

(** The dictionary built by the loop: its keys are the distinct tokens of
    more than 3 code points in the order of their first appearance, and each
    is mapped to the number of its occurrences. *)
Lemma build_word_freq_keys (words : list str) :
  map fst (build_word_freq words) = first_seen [] (long_words words).
Proof. unfold build_word_freq. now rewrite keys_fold_count_word. Qed.

Lemma build_word_freq_entry (words : list str) (w : str) (n : Z) :
  In (w, n) (build_word_freq words) ->
  n = occurrences w words /\ (len w > 3)%Z /\ In w words.
Proof.
  intros Hin.
  assert (Hk : In w (first_seen [] (long_words words))).
  { rewrite <- build_word_freq_keys. change w with (fst (w, n)).
    now apply in_map. }
  apply first_seen_in in Hk as [Hk _].
  apply filter_In in Hk as [Hw Hlong].
  split; [|split; [|assumption]].
  - rewrite <- (dict_get_entry (build_word_freq words) w n).
    + unfold build_word_freq. rewrite get_fold_count_word. simpl.
      now apply occurrences_long.
    + rewrite build_word_freq_keys. apply first_seen_nodup.
    + assumption.
  - apply Nat.ltb_lt in Hlong. unfold len. lia.
Qed.

(** ** The user analysis *)

Lemma newest_split (limit : nat) (rows : list Message) :
  exists rest,
    Permutation (newest limit rows ++ rest) rows /\
    descending m_timestamp (newest limit rows ++ rest) /\
    (List.length (newest limit rows) = limit \/ rest = []).
Proof.
  exists (skipn limit (sorted_desc m_timestamp rows)).
  unfold newest. rewrite firstn_skipn. repeat split.
  - apply sorted_desc_perm.
  - apply sorted_desc_descending.
  - destruct (Nat.le_gt_cases limit (List.length (sorted_desc m_timestamp rows))).
    + left. now apply firstn_length_le.
    + right. apply skipn_all2. lia.
Qed.

Lemma newest_nonempty (limit : nat) (rows : list Message) :
  rows <> [] -> newest (S limit) rows <> [].
Proof.
  intros Hrows Hnil. unfold newest in Hnil.
  destruct (sorted_desc m_timestamp rows) as [|m l] eqn:E; [|discriminate].
  apply Hrows. apply Permutation_nil.
  rewrite <- E. apply sorted_desc_perm.
Qed.

Lemma newest_length (limit : nat) (rows : list Message) :
  List.length (newest limit rows) = Nat.min limit (List.length rows).
Proof.
  unfold newest. rewrite length_firstn.
  now rewrite (Permutation_length (sorted_desc_perm m_timestamp rows)).
Qed.

Lemma app_same_length {A} (l1 l2 r1 r2 : list A) :
  l1 ++ r1 = l2 ++ r2 -> List.length l1 = List.length l2 -> l1 = l2.
Proof.
  revert l2. induction l1 as [|x l1 IH]; intros [|y l2] E Hlen;
    simpl in *; try discriminate; [reflexivity|].
  injection E as -> E. f_equal. apply IH; [assumption | lia].
Qed.

(** With pairwise distinct time stamps the rows [newest] returns are the
    only possible answer of the query: any descending arrangement of the
    rows starts with them. *)
Lemma newest_determined (limit : nat) (rows selected rest : list Message) :
  NoDup (map m_timestamp rows) ->
  Permutation (selected ++ rest) rows ->
  descending m_timestamp (selected ++ rest) ->
  List.length selected = List.length (newest limit rows) ->
  selected = newest limit rows.
Proof.
  intros Hnd Hp Hd Hlen.
  destruct (newest_split limit rows) as [rest' [Hp' [Hd' _]]].
  apply (@app_same_length _ selected (newest limit rows) rest rest'); [|exact Hlen].
  apply (@descending_unique _ m_timestamp); trivial.
  - eapply perm_trans; [exact Hp | now apply Permutation_sym].
  - eapply Permutation_NoDup; [|exact Hnd].
    apply Permutation_map, Permutation_sym. exact Hp.
Qed.

Lemma user_messages_nonempty (db : DB) (conversation : Conversation) :
  user_rows db conversation <> [] -> user_messages_of db conversation <> [].
Proof. apply newest_nonempty. Qed.

Lemma py_sum_ones {A} (l : list A) :
  py_sum (map (fun _ => 1%Z) l) = Z.of_nat (List.length l).
Proof.
  unfold py_sum.
  enough (H : forall a, fold_left Z.add (map (fun _ : A => 1%Z) l) a
                        = (a + Z.of_nat (List.length l))%Z) by now rewrite H.
  induction l as [|x l IH]; intros a; simpl List.length; simpl map; simpl fold_left.
  - lia.
  - rewrite IH. lia.
Qed.

Lemma count_in_tally (vocabulary words : list str) :
  count_in vocabulary words = tally vocabulary words.
Proof.
  unfold count_in, tally. rewrite py_sum_ones. do 2 f_equal.
  apply filter_ext. intros w.
  destruct (in_dec str_eq_dec w vocabulary) as [H|H].
  - now apply mem_spec.
  - destruct (mem w vocabulary) eqn:E; [|reflexivity].
    apply mem_spec in E. contradiction.
Qed.

Lemma first_conversation_none (db : DB) (uid : str) :
  first_conversation_of db uid = None <->
  forall c, In c (conversations db) -> c_user_id c <> uid.
Proof.
  unfold first_conversation_of. split.
  - intros H c Hin E.
    apply (find_none _ _ H) in Hin. apply str_eqb_neq in Hin. contradiction.
  - intros H. destruct (find _ _) as [c|] eqn:E; [|reflexivity].
    apply find_some in E as [Hin E]. apply str_eqb_eq in E.
    now elim (H c Hin).
Qed.

Lemma user_messages_empty (db : DB) (conversation : Conversation) :
  user_rows db conversation = [] -> user_messages_of db conversation = [].
Proof.
  intros H. unfold user_messages_of. fold (user_rows db conversation).
  now rewrite H.
Qed.

Lemma level_names_distinct :
  py "high" <> py "medium" /\ py "high" <> py "low" /\ py "medium" <> py "low".
Proof. repeat split; intros H; vm_compute in H; discriminate. Qed.

Section Analysis.

Variable lower : str -> str.

Lemma words_of_contents (ms ms' : list Message) :
  map m_content ms = map m_content ms' -> words_of lower ms = words_of lower ms'.
Proof.
  intros H. unfold words_of.
  rewrite <- (map_map m_content lower ms), <- (map_map m_content lower ms').
  now rewrite H.
Qed.

(** What [get_user_sentiment_history] returns past its two early returns. *)
Lemma analysis_of_active_user (db : DB) (uid : str) (conversation : Conversation) :
  first_conversation_of db uid = Some conversation ->
  user_messages_of db conversation <> [] ->
  let user_messages := user_messages_of db conversation in
  let words := words_of lower user_messages in
  let positive_count := count_in positive_words words in
  let negative_count := count_in negative_words words in
  let total := count_user_rows db uid in
  get_user_sentiment_history lower db uid =
  [("message_count", VInt (Z.of_nat (List.length user_messages)));
   ("total_messages", VInt total);
   ("topics", VList (top_topics (build_word_freq words)));
   ("sentiment",
     VStr (if (positive_count >? negative_count)%Z then py "positive"
           else if (negative_count >? positive_count)%Z then py "negative"
           else py "neutral"));
   ("last_message_time",
     match user_messages with
     | msg :: _ => VTime (m_timestamp msg)
     | [] => VNone
     end);
   ("engagement_level",
     VStr (if (total >? 20)%Z then py "high"
           else if (total >? 10)%Z then py "medium" else py "low"))]%string.
Proof.
  intros Hc Hne. unfold get_user_sentiment_history. rewrite Hc.
  destruct (user_messages_of db conversation) as [|m ms] eqn:E.
  - now elim Hne.
  - reflexivity.
Qed.

(** C3.  For a user with at least one user-role message, the time stamps
    of whose user-role rows are pairwise distinct: the messages inspected
    are the 50 most recent user-role rows of the conversation in descending
    time-stamp order, and no other list is; their texts are lower-cased,
    joined and split at white space into tokens; the frequency map has the
    tokens of more than 3 code points as keys, in the order of their first
    appearance, each with its number of occurrences; [topics] are the keys
    of the first 5 entries of that map sorted by descending frequency,
    entries of equal frequency staying in the order of the map; and the
    result depends on the ordered message texts only. *)
Theorem topics_top5_stable (db : DB) (uid : str) (conversation : Conversation) :
  first_conversation_of db uid = Some conversation ->
  user_rows db conversation <> [] ->
  NoDup (map m_timestamp (user_rows db conversation)) ->
  let user_messages := user_messages_of db conversation in
  let words := split (join (py " ") (map (fun m => lower (m_content m)) user_messages)) in
  let word_freq := build_word_freq words in
  let ranked := sorted_desc snd word_freq in
  (List.length user_messages <= 50)%nat /\
  List.length user_messages = Nat.min 50 (List.length (user_rows db conversation)) /\
  (exists rest,
      Permutation (user_messages ++ rest) (user_rows db conversation) /\
      descending m_timestamp (user_messages ++ rest) /\
      (List.length user_messages = 50 \/ rest = [])) /\
  (forall selected rest,
      Permutation (selected ++ rest) (user_rows db conversation) ->
      descending m_timestamp (selected ++ rest) ->
      List.length selected = Nat.min 50 (List.length (user_rows db conversation)) ->
      selected = user_messages) /\
  (Forall is_token words /\
   List.concat words
   = without_spaces (join (py " ") (map (fun m => lower (m_content m)) user_messages))) /\
  map fst word_freq = first_seen [] (long_words words) /\
  (forall w n, In (w, n) word_freq ->
      n = occurrences w words /\ (len w > 3)%Z /\ In w words) /\
  Permutation ranked word_freq /\
  descending snd ranked /\
  (forall n, with_key snd n ranked = with_key snd n word_freq) /\
  getitem (get_user_sentiment_history lower db uid) "topics"
    = Ok (VList (map fst (firstn 5 ranked))) /\
  (forall db' uid' conversation',
      first_conversation_of db' uid' = Some conversation' ->
      map m_content (user_messages_of db' conversation') = map m_content user_messages ->
      getitem (get_user_sentiment_history lower db' uid') "topics"
      = getitem (get_user_sentiment_history lower db uid) "topics").
Proof.
  intros Hc Hrows Hdistinct user_messages words word_freq ranked.
  assert (Hne : user_messages <> []) by now apply user_messages_nonempty.
  assert (Hlen : List.length user_messages
                 = Nat.min 50 (List.length (user_rows db conversation)))
    by apply newest_length.
  split; [lia|].
  split; [exact Hlen|].
  split; [apply newest_split|].
  split.
  { intros selected rest Hp Hd Hsel.
    apply (@newest_determined 50 (user_rows db conversation) selected rest);
      trivial.
    rewrite Hsel. symmetry. exact Hlen. }
  split; [apply split_tokens|].
  split; [apply build_word_freq_keys|].
  split; [apply build_word_freq_entry|].
  split; [apply sorted_desc_perm|].
  split; [apply sorted_desc_descending|].
  split; [intros n; apply sorted_desc_stable|].
  split.
  - rewrite (analysis_of_active_user db uid Hc Hne). reflexivity.
  - intros db' uid' conversation' Hc' Hsame.
    assert (Hne' : user_messages_of db' conversation' <> []).
    { intros E. rewrite E in Hsame. simpl in Hsame.
      subst user_messages. destruct (user_messages_of db conversation);
        [now elim Hne | discriminate]. }
    rewrite (analysis_of_active_user db' uid' Hc' Hne').
    rewrite (analysis_of_active_user db uid Hc Hne).
    cbn [getitem String.eqb Ascii.eqb Bool.eqb].
    now rewrite (words_of_contents _ _ Hsame).
Qed.

(** The two shapes of an analysis. *)
Lemma analysis_cases (db : DB) (uid : str) :
  (get_user_sentiment_history lower db uid = empty_analysis /\
   (first_conversation_of db uid = None \/
    exists c, first_conversation_of db uid = Some c /\ user_rows db c = []))
  \/
  (exists c, first_conversation_of db uid = Some c /\ user_rows db c <> [] /\
             user_messages_of db c <> []).
Proof.
  destruct (first_conversation_of db uid) as [c|] eqn:Hc.
  - destruct (user_rows db c) as [|m ms] eqn:Hr.
    + left. split; [|right; now exists c].
      unfold get_user_sentiment_history. rewrite Hc.
      now rewrite (user_messages_empty db c Hr).
    + right. exists c. split; [reflexivity|].
      assert (Hne : user_rows db c <> []) by (rewrite Hr; discriminate).
      split; [exact Hne | now apply user_messages_nonempty].
  - left. split; [|now left].
    unfold get_user_sentiment_history. now rewrite Hc.
Qed.

(** C4.  For a user with at least one user-role message, [sentiment] is the
    majority vote between the tokens that are exactly a word of the
    9-word positive list and those that are exactly a word of the 9-word
    negative list, counted over the token stream the topics are computed
    from: "positive" when the positive count is strictly larger, "negative"
    when the negative count is strictly larger, "neutral" when they are
    equal. *)
Theorem sentiment_majority_vote (db : DB) (uid : str) (conversation : Conversation) :
  first_conversation_of db uid = Some conversation ->
  user_rows db conversation <> [] ->
  let analysis := get_user_sentiment_history lower db uid in
  let words :=
    split (join (py " ")
             (map (fun m => lower (m_content m)) (user_messages_of db conversation))) in
  let positive := tally positive_words words in
  let negative := tally negative_words words in
  List.length positive_words = 9 /\ List.length negative_words = 9 /\
  getitem analysis "topics" = Ok (VList (top_topics (build_word_freq words))) /\
  ((positive > negative)%Z -> getitem analysis "sentiment" = Ok (VStr (py "positive"))) /\
  ((negative > positive)%Z -> getitem analysis "sentiment" = Ok (VStr (py "negative"))) /\
  (positive = negative -> getitem analysis "sentiment" = Ok (VStr (py "neutral"))).
Proof.
  intros Hc Hrows analysis words positive negative.
  assert (Hne : user_messages_of db conversation <> [])
    by now apply user_messages_nonempty.
  subst analysis. rewrite (analysis_of_active_user db uid Hc Hne).
  cbn [getitem String.eqb Ascii.eqb Bool.eqb].
  rewrite !count_in_tally.
  change (words_of lower (user_messages_of db conversation)) with words.
  fold positive. fold negative.
  split; [reflexivity | split; [reflexivity | split; [reflexivity|]]].
  repeat split; intros H.
  - destruct (Z.gtb_spec positive negative); [reflexivity | lia].
  - destruct (Z.gtb_spec positive negative); [lia|].
    destruct (Z.gtb_spec negative positive); [reflexivity | lia].
  - destruct (Z.gtb_spec positive negative); [lia|].
    destruct (Z.gtb_spec negative positive); [lia | reflexivity].
Qed.

(** C6, as the code has it.  For a user with at least one user-role
    message, [engagement_level] is derived from [total_messages], the
    number of all rows of the user whatever their role, with strict
    thresholds: "high" iff the total is above 20, "medium" iff it is above
    10 and at most 20, "low" otherwise; so 10 gives "low", 11 gives
    "medium" and 21 gives "high".  For a user without a conversation or
    without a user-role message the analysis has neither key. *)
Theorem engagement_level_thresholds (db : DB) (uid : str) :
  let analysis := get_user_sentiment_history lower db uid in
  let total := count_user_rows db uid in
  ((first_conversation_of db uid = None \/
    exists c, first_conversation_of db uid = Some c /\ user_rows db c = []) ->
   getitem analysis "engagement_level" = Raise (KeyError "engagement_level") /\
   getitem analysis "total_messages" = Raise (KeyError "total_messages")) /\
  (forall c, first_conversation_of db uid = Some c -> user_rows db c <> [] ->
   exists level,
     getitem analysis "engagement_level" = Ok (VStr level) /\
     getitem analysis "total_messages" = Ok (VInt total) /\
     (level = py "high" <-> (total > 20)%Z) /\
     (level = py "medium" <-> (10 < total <= 20)%Z) /\
     (level = py "low" <-> (total <= 10)%Z) /\
     (total = 10%Z -> level = py "low") /\
     (total = 11%Z -> level = py "medium") /\
     (total = 21%Z -> level = py "high")).
Proof.
  intros analysis total. subst analysis. split.
  - intros Hsilent.
    assert (He : get_user_sentiment_history lower db uid = empty_analysis).
    { unfold get_user_sentiment_history. destruct Hsilent as [H | [c [Hc Hr]]].
      - now rewrite H.
      - rewrite Hc. now rewrite (user_messages_empty db c Hr). }
    rewrite He. split; reflexivity.
  - intros c Hc Hrows.
    assert (Hne : user_messages_of db c <> []) by now apply user_messages_nonempty.
    rewrite (analysis_of_active_user db uid Hc Hne).
    cbn [getitem String.eqb Ascii.eqb Bool.eqb]. fold total.
    eexists. split; [reflexivity|]. split; [reflexivity|].
    destruct level_names_distinct as [Hhm [Hhl Hml]].
    destruct (Z.gtb_spec total 20) as [G20|G20];
      [|destruct (Z.gtb_spec total 10) as [G10|G10]];
      repeat split; intros; try lia; try reflexivity; congruence.
Qed.

(** C7.  For a user id without a conversation, or whose conversation holds
    no user-role message, [get_user_sentiment_history] returns the
    zero-valued analysis: [message_count] 0, no topics, sentiment
    "neutral". *)
Theorem analysis_of_silent_user (db : DB) (uid : str) :
  (forall c, In c (conversations db) -> c_user_id c <> uid) \/
  (exists c, first_conversation_of db uid = Some c /\ user_rows db c = []) ->
  let analysis := get_user_sentiment_history lower db uid in
  analysis = [("message_count", VInt 0); ("topics", VList []);
              ("sentiment", VStr (py "neutral"))]%string /\
  getitem analysis "message_count" = Ok (VInt 0) /\
  getitem analysis "topics" = Ok (VList []) /\
  getitem analysis "sentiment" = Ok (VStr (py "neutral")).
Proof.
  intros H analysis.
  assert (E : analysis = empty_analysis).
  { subst analysis. unfold get_user_sentiment_history.
    destruct H as [H | [c [Hc Hr]]].
    - apply first_conversation_none in H. now rewrite H.
    - rewrite Hc. now rewrite (user_messages_empty db c Hr). }
  rewrite E. repeat split.
Qed.

End Analysis.

(** ** The completion gateway *)

Section Gateway.

Variable py_format : pyval -> str.
Variable generate_content : str -> result str.
Variables (uid msg : str) (history : list Turn) (analysis : dict) (db : DB).

Lemma generate_response_prompt_failure (e : exn) :
  build_contextual_prompt py_format uid msg history analysis db = Raise e ->
  generate_response py_format generate_content uid msg history analysis db = Ok apology_fallback.
Proof. intros H. unfold generate_response. now rewrite H. Qed.

Lemma generate_response_call_failure (prompt : str) (e : exn) :
  build_contextual_prompt py_format uid msg history analysis db = Ok prompt ->
  generate_content prompt = Raise e ->
  generate_response py_format generate_content uid msg history analysis db = Ok apology_fallback.
Proof.
  intros Hp Hc. unfold generate_response. rewrite Hp. simpl. now rewrite Hc.
Qed.

Lemma generate_response_call_success (prompt text : str) :
  build_contextual_prompt py_format uid msg history analysis db = Ok prompt ->
  generate_content prompt = Ok text ->
  generate_response py_format generate_content uid msg history analysis db =
  Ok (if (List.length (strip text) <? 10)%nat then short_reply_fallback
      else strip text).
Proof.
  intros Hp Hc. unfold generate_response. rewrite Hp. simpl. rewrite Hc. simpl.
  f_equal. unfold len.
  destruct (strip text) as [|c s] eqn:E; [reflexivity|].
  cbn [str_eqb negb orb].
  destruct (Nat.ltb_spec (List.length (c :: s)) 10);
    destruct (Z.ltb_spec (Z.of_nat (List.length (c :: s))) 10);
    try reflexivity; lia.
Qed.

Lemma generate_response_returns :
  exists reply, generate_response py_format generate_content uid msg history analysis db = Ok reply.
Proof.
  destruct (build_contextual_prompt py_format uid msg history analysis db) as [prompt|e] eqn:Hp.
  - destruct (generate_content prompt) as [text|e] eqn:Hc.
    + eexists. eapply generate_response_call_success; eassumption.
    + eexists. eapply generate_response_call_failure; eassumption.
  - eexists. eapply generate_response_prompt_failure; eassumption.
Qed.

(** C5.  [generate_response] always returns a text and never raises.  If the
    completion call raises, whatever the exception, or the prompt cannot be
    built, the result is the fixed apology; if the call returns a text
    whose trimmed form is empty or shorter than 10 code points, the result
    is the fixed generic line; otherwise it is the trimmed text. *)
Theorem generate_response_never_raises :
  (exists reply, generate_response py_format generate_content uid msg history analysis db = Ok reply) /\
  (forall e, build_contextual_prompt py_format uid msg history analysis db = Raise e ->
     generate_response py_format generate_content uid msg history analysis db = Ok apology_fallback) /\
  (forall prompt,
     build_contextual_prompt py_format uid msg history analysis db = Ok prompt ->
     (forall e, generate_content prompt = Raise e ->
        generate_response py_format generate_content uid msg history analysis db = Ok apology_fallback) /\
     (forall text, generate_content prompt = Ok text ->
        (strip text = [] \/ (List.length (strip text) < 10)%nat ->
           generate_response py_format generate_content uid msg history analysis db = Ok short_reply_fallback) /\
        ((10 <= List.length (strip text))%nat ->
           generate_response py_format generate_content uid msg history analysis db = Ok (strip text)))).
Proof.
  split; [apply generate_response_returns|].
  split; [intros e; apply generate_response_prompt_failure|].
  intros prompt Hp. split.
  - intros e He. eapply generate_response_call_failure; eassumption.
  - intros text Hc.
    rewrite (generate_response_call_success Hp Hc). split.
    + intros Hshort.
      assert (Hlt : (List.length (strip text) < 10)%nat).
      { destruct Hshort as [E|Hlt]; [rewrite E; simpl; lia | assumption]. }
      apply Nat.ltb_lt in Hlt. now rewrite Hlt.
    + intros Hlong. apply Nat.ltb_ge in Hlong. now rewrite Hlong.
Qed.

End Gateway.

(** ** The prompt composer *)

Lemma has_profile_section_app (l1 l2 : list str) :
  has_profile_section (l1 ++ l2) = has_profile_section l1 || has_profile_section l2.
Proof. apply existsb_app. Qed.


Section Composer.

Variable py_format : pyval -> str.



Lemma profile_lines_inv (ua : dict) (total : pyval) (lines : list str) :
  profile_lines py_format ua total = Ok lines ->
  exists engagement sentiment topics last,
    getitem ua "engagement_level" = Ok engagement /\
    getitem ua "sentiment" = Ok sentiment /\
    getitem ua "topics" = Ok topics /\
    getitem ua "last_message_time" = Ok last /\
    exists topic_line,
      (if truthy topics
       then exists joined, join_val (py ", ") topics = Ok joined /\
                           topic_line = [py "- Common topics discussed: " ++ joined]
       else topic_line = []) /\
      lines =
        [py "- Total messages: " ++ py_format total;
         py "- Engagement level: " ++ py_format engagement;
         py "- Overall sentiment trend: " ++ py_format sentiment]
        ++ topic_line
        ++ (if truthy last then [py "- Last message was sent recently"] else []).
Proof.
  unfold profile_lines. intros H.
  destruct (getitem ua "engagement_level") as [engagement|] eqn:He; [|discriminate].
  destruct (getitem ua "sentiment") as [sentiment|] eqn:Hs; [|discriminate].
  destruct (getitem ua "topics") as [topics|] eqn:Ht; [|discriminate].
  cbn [bind] in H.
  exists engagement, sentiment, topics.
  destruct (truthy topics) eqn:Htruthy.
  - destruct (join_val (py ", ") topics) as [joined|] eqn:Hj; [|discriminate].
    cbn [bind] in H.
    destruct (getitem ua "last_message_time") as [last|] eqn:Hl; [|discriminate].
    cbn [bind] in H. injection H as <-. exists last.
    repeat split. exists [py "- Common topics discussed: " ++ joined].
    split; [now exists joined|].
    destruct (truthy last); [reflexivity | now rewrite app_nil_r].
  - cbn [bind] in H.
    destruct (getitem ua "last_message_time") as [last|] eqn:Hl; [|discriminate].
    cbn [bind] in H. injection H as <-. exists last.
    repeat split. exists []. split; [reflexivity|].
    destruct (truthy last); reflexivity.
Qed.

Lemma context_parts_inv (uid msg : str) (history : list Turn) (ua : dict)
    (db : DB) (parts : list str) :
  context_parts py_format uid msg history ua db = Ok parts ->
  exists total lines,
    getitem ua "total_messages" = Ok (VInt total) /\
    (if (total >? 0)%Z then profile_lines py_format ua (VInt total) = Ok lines
     else lines = []) /\
    parts = [system_prompt; header_line uid] ++ lines
            ++ closing_parts py_format uid msg history db.
Proof.
  unfold context_parts. intros H.
  destruct (getitem ua "total_messages") as [v|] eqn:Hv; [|discriminate].
  cbn [bind] in H.
  destruct v as [total| | | |]; try discriminate.
  cbn [gt0 bind] in H. exists total.
  assert (Hshape : forall lines,
    (((([system_prompt] ++ [nl ++ py "User Profile (ID: " ++ uid ++ py "):"]) ++ lines)
       ++ (if (total_conversations (get_user_conversation_summary db uid) >? 0)%Z
           then [py "- User has "
                 ++ py_format (VInt (total_conversations (get_user_conversation_summary db uid)))
                 ++ py " total conversations"]
           else []))
      ++ match history with
         | [] => []
         | _ :: _ => (nl ++ py "Recent Conversation History:")
                     :: map history_line (last6 history)
         end)
     ++ [nl ++ py "Current User Message: " ++ msg; nl ++ py "Assistant:"]
    = [system_prompt; header_line uid] ++ lines ++ closing_parts py_format uid msg history db).
  { intros lines. unfold closing_parts, header_line.
    cbn [app]. now rewrite <- !app_assoc. }
  destruct (total >? 0)%Z.
  - destruct (profile_lines py_format ua (VInt total)) as [lines|] eqn:Hl; [|discriminate].
    cbn [bind] in H. exists lines. repeat split.
    injection H as <-. rewrite <- Hshape.
    destruct (_ >? 0)%Z; destruct history; cbn [app];
      rewrite <- ?app_assoc; cbn [app]; rewrite ?app_nil_r; reflexivity.
  - cbn [bind] in H. exists []. repeat split.
    injection H as <-. rewrite <- Hshape.
    destruct (_ >? 0)%Z; destruct history; cbn [app];
      rewrite <- ?app_assoc; cbn [app]; rewrite ?app_nil_r; reflexivity.
Qed.


End Composer.

(** ** The request handler *)

Lemma find_app_last {A} (f : A -> bool) (l : list A) (x : A) :
  find f l = None -> find f (l ++ [x]) = if f x then Some x else None.
Proof.
  induction l as [|y l IH]; simpl; [reflexivity|].
  destruct (f y); [discriminate | assumption].
Qed.

Lemma get_or_create_conversation_found (db : DB) (uid : str) (now : Z) :
  first_conversation_of (fst (get_or_create_conversation db uid now)) uid
  = Some (snd (get_or_create_conversation db uid now)) /\
  messages (fst (get_or_create_conversation db uid now)) = messages db.
Proof.
  unfold get_or_create_conversation.
  destruct (first_conversation_of db uid) as [c|] eqn:E; simpl.
  - now split.
  - split; [|reflexivity]. unfold first_conversation_of in *. simpl.
    rewrite (find_app_last _ _ _ E). simpl. now rewrite str_eqb_refl.
Qed.

Lemma count_user_rows_save (db : DB) (uid : str) (cid : Z) (role content : str) (now : Z) :
  count_user_rows (fst (save_message db uid cid role content now)) uid
  = (count_user_rows db uid + 1)%Z.
Proof.
  unfold count_user_rows, save_message. simpl.
  rewrite filter_app, length_app. simpl. rewrite str_eqb_refl. simpl. lia.
Qed.

Lemma count_user_rows_nonneg (db : DB) (uid : str) : (0 <= count_user_rows db uid)%Z.
Proof. unfold count_user_rows. lia. Qed.

Lemma replace_removes (old : N) (new s : str) :
  ~ In old new -> ~ In old (replace old new s).
Proof.
  intros Hnew. induction s as [|c s IH]; simpl; [tauto|].
  rewrite in_app_iff. intros [H|H]; [|contradiction].
  destruct (N.eqb_spec c old); [contradiction|].
  destruct H as [H|[]]. congruence.
Qed.

Lemma replace_absent (old : N) (new s : str) :
  ~ In old s -> replace old new s = s.
Proof.
  induction s as [|c s IH]; simpl; intros H; [reflexivity|].
  destruct (N.eqb_spec c old) as [E|E]; [tauto|].
  simpl. f_equal. apply IH. tauto.
Qed.

Lemma substr_suffix (a b : str) : substr b (a ++ b).
Proof. exists a, []. now rewrite app_nil_r. Qed.

Lemma user_rows_nonempty_in (db : DB) (c : Conversation) (m : Message) :
  In m (user_rows db c) -> user_rows db c <> [].
Proof. intros H E. rewrite E in H. contradiction. Qed.

Section Handler.

Variable lower : str -> str.
Variable py_format : pyval -> str.
Variable generate_content : str -> result str.

(** After the first two steps of [chat_endpoint] the inbound message is a
    user-role row of the conversation of the user. *)
Lemma chat_context_spec (db : DB) (req : MessageRequest) (clock : Clock) :
  exists db1 conversation stored,
    chat_context lower db req clock
    = (db1, conversation, get_conversation_history db1 (user_id req) 10,
       get_user_sentiment_history lower db1 (user_id req)) /\
    first_conversation_of db1 (user_id req) = Some conversation /\
    messages db1 = messages db ++ [stored] /\
    m_user_id stored = user_id req /\
    m_conversation_id stored = c_id conversation /\
    m_role stored = py "user" /\
    m_content stored = message req /\
    In stored (user_rows db1 conversation) /\
    (count_user_rows db1 (user_id req) >= 1)%Z.
Proof.
  unfold chat_context.
  destruct (get_or_create_conversation_found db (user_id req) (at_conversation clock))
    as [Hfound Hmsgs].
  destruct (get_or_create_conversation db (user_id req) (at_conversation clock))
    as [db0 conversation]. simpl in Hfound, Hmsgs.
  pose proof (count_user_rows_save db0 (user_id req) (c_id conversation) (py "user")
                (message req) (at_user_message clock)) as Hcount.
  pose proof (count_user_rows_nonneg db0 (user_id req)) as Hnonneg.
  destruct (save_message db0 (user_id req) (c_id conversation) (py "user")
              (message req) (at_user_message clock)) as [db1 stored] eqn:Hsave.
  unfold save_message in Hsave. injection Hsave as <- <-.
  simpl in Hcount.
  eexists _, conversation, _. split; [reflexivity|].
  split; [exact Hfound|].
  split; [simpl; now rewrite Hmsgs|].
  repeat (split; [reflexivity|]).
  split.
  - unfold user_rows. simpl. apply filter_In. split.
    + apply in_or_app. right. now left.
    + simpl. now rewrite Z.eqb_refl.
  - lia.
Qed.

(** The response of [chat_endpoint], given the context it computed. *)
Lemma chat_endpoint_returns (db : DB) (req : MessageRequest) (clock : Clock) :
  exists db1 conversation history analysis context,
    chat_context lower db req clock = (db1, conversation, history, analysis) /\
    let reply := gateway_reply py_format generate_content db1 req history analysis in
    let saved := save_message db1 (user_id req) (c_id conversation)
                   (py "assistant") reply (at_assistant_message clock) in
    let text := if is_crisis (analyze_user_message lower (message req))
                then reply ++ crisis_notice else reply in
    chat_endpoint lower py_format generate_content db req clock =
    (fst saved,
     Ok {| response := text;
           response_html := replace 10 (py "<br>") text;
           r_user_id := user_id req;
           message_id := m_id (snd saved);
           context_analysis := Some context |}).
Proof.
  destruct (chat_context_spec db req clock)
    as [db1 [conversation [stored [Hctx [Hc [_ [_ [_ [_ [_ [Hin _]]]]]]]]]]].
  assert (Hne : user_messages_of db1 conversation <> []).
  { apply user_messages_nonempty. eapply user_rows_nonempty_in; eassumption. }
  eexists db1, conversation, _, _, _. split; [exact Hctx|].
  unfold chat_endpoint. rewrite Hctx.
  cbv zeta. cbn [save_message fst snd].
  rewrite (analysis_of_active_user lower db1 (user_id req) Hc Hne).
  reflexivity.
Qed.

(** C2.  For a request whose message is classified as a crisis and that
    returns a response, the reply of the gateway is stored as the assistant
    message as it is, and the hotline notice is appended afterwards, to the
    returned text only: the response ends with the notice, the stored
    content is the reply without it. *)
Theorem crisis_notice_only_in_response (db db' : DB) (req : MessageRequest)
    (clock : Clock) (resp : MessageResponse) :
  is_crisis (analyze_user_message lower (message req)) = true ->
  chat_endpoint lower py_format generate_content db req clock = (db', Ok resp) ->
  exists db1 conversation history analysis reply stored,
    chat_context lower db req clock = (db1, conversation, history, analysis) /\
    generate_response py_format generate_content (user_id req) (message req) history analysis db1 = Ok reply /\
    messages db' = messages db1 ++ [stored] /\
    m_role stored = py "assistant" /\
    m_content stored = reply /\
    m_id stored = message_id resp /\
    response resp = reply ++ crisis_notice /\
    substr crisis_notice (response resp).
Proof.
  intros Hcrisis Hresp.
  destruct (chat_endpoint_returns db req clock)
    as [db1 [conversation [history [analysis [context [Hctx Hret]]]]]].
  destruct (generate_response_returns py_format generate_content (user_id req) (message req) history analysis db1)
    as [reply Hreply].
  cbv zeta in Hret. rewrite Hcrisis in Hret.
  unfold gateway_reply in Hret. rewrite Hreply in Hret.
  rewrite Hret in Hresp. injection Hresp as <- <-.
  exists db1, conversation, history, analysis, reply.
  eexists. split; [exact Hctx|]. split; [exact Hreply|]. cbn.
  repeat (split; [reflexivity|]). apply substr_suffix.
Qed.

(** C9, as the code has it.  In every /chat response, [response_html] is
    [response] with each line feed replaced by the line-break tag: it holds
    no line feed, and a response without line feeds is returned unchanged,
    no other character being rewritten. *)
Theorem response_html_line_breaks (db db' : DB) (req : MessageRequest)
    (clock : Clock) (resp : MessageResponse) :
  chat_endpoint lower py_format generate_content db req clock = (db', Ok resp) ->
  response_html resp = replace 10 (py "<br>") (response resp) /\
  ~ In 10%N (response_html resp) /\
  (~ In 10%N (response resp) -> response_html resp = response resp).
Proof.
  intros H.
  destruct (chat_endpoint_returns db req clock)
    as [db1 [conversation [history [analysis [context [_ Hret]]]]]].
  cbv zeta in Hret. rewrite Hret in H. injection H as _ <-. cbn [response response_html].
  split; [reflexivity|]. split.
  - apply replace_removes. vm_compute. intuition discriminate.
  - apply replace_absent.
Qed.

(** C10.  When [chat_endpoint] reaches the analysis, the inbound message is
    already a stored user-role row of the conversation, so the analysis is
    not the early-return one: its [message_count] is at least 1 and the keys
    [total_messages], [engagement_level] and [last_message_time] are
    present; the prompt is built, and the handler never answers with a
    [KeyError]. *)
Theorem chat_analysis_populated (db db1 : DB) (req : MessageRequest) (clock : Clock)
    (conversation : Conversation) (history : list Turn) (analysis : dict) :
  chat_context lower db req clock = (db1, conversation, history, analysis) ->
  (exists stored,
      In stored (messages db1) /\ m_role stored = py "user" /\
      m_content stored = message req /\ m_user_id stored = user_id req /\
      m_conversation_id stored = c_id conversation) /\
  analysis = get_user_sentiment_history lower db1 (user_id req) /\
  analysis <> empty_analysis /\
  (exists n, getitem analysis "message_count" = Ok (VInt n) /\ (n >= 1)%Z) /\
  (exists total, getitem analysis "total_messages" = Ok (VInt total) /\ (total >= 1)%Z) /\
  (exists level, getitem analysis "engagement_level" = Ok (VStr level)) /\
  (exists t, getitem analysis "last_message_time" = Ok (VTime t)) /\
  (exists prompt, build_contextual_prompt py_format (user_id req) (message req) history
                    analysis db1 = Ok prompt) /\
  (forall db' key,
      chat_endpoint lower py_format generate_content db req clock
      <> (db', Raise (HTTPException 500 (KeyError key)))).
Proof.
  intros Hctx.
  destruct (chat_context_spec db req clock)
    as [db1' [conversation' [stored [Hctx' [Hc [Hm [Hu [Hcid [Hr [Hcont [Hin Hcount]]]]]]]]]]].
  rewrite Hctx in Hctx'. injection Hctx' as <- <- -> ->.
  assert (Hne : user_messages_of db1 conversation <> []).
  { apply user_messages_nonempty. eapply user_rows_nonempty_in; eassumption. }
  split.
  { exists stored. repeat split; try assumption.
    rewrite Hm. apply in_or_app. right. now left. }
  split; [reflexivity|].
  rewrite (analysis_of_active_user lower db1 (user_id req) Hc Hne).
  split; [discriminate|].
  cbn [getitem String.eqb Ascii.eqb Bool.eqb].
  split.
  { eexists. split; [reflexivity|].
    destruct (user_messages_of db1 conversation); [now elim Hne | simpl; lia]. }
  split; [eexists; split; [reflexivity | assumption]|].
  split; [eexists; reflexivity|].
  split.
  { destruct (user_messages_of db1 conversation); [now elim Hne | eexists; reflexivity]. }
  split.
  - unfold build_contextual_prompt, context_parts.
    cbn [getitem String.eqb Ascii.eqb Bool.eqb bind gt0].
    destruct (count_user_rows db1 (user_id req) >? 0)%Z.
    + unfold profile_lines.
      cbn [getitem String.eqb Ascii.eqb Bool.eqb bind truthy join_val].
      destruct (top_topics _); cbn [bind];
        destruct (user_messages_of db1 conversation); cbn [truthy bind];
        eexists; reflexivity.
    + cbn [bind]. eexists; reflexivity.
  - destruct (chat_endpoint_returns db req clock)
      as [d [c [h [a [context [_ Hret]]]]]].
    intros db' key E. cbv zeta in Hret. rewrite Hret in E. discriminate.
Qed.

End Handler.

(* ================================================================== *)
(** * The properties on concrete requests and stores *)

Lemma end_it_all_is_crisis (lower : str -> str) (msg : str) :
  substr (py "end it all") (lower msg) ->
  is_crisis (analyze_user_message lower msg) = true.
Proof.
  intros H. unfold analyze_user_message; cbn [is_crisis].
  apply any_in_spec. exists (py "end it all"). split; [simpl; tauto | assumption].
Qed.

(** A message with a crisis phrase and an urgent keyword is "high". *)
Lemma urgency_level_priority_witness :
  (exists k, In k crisis_keywords /\
             substr k (ascii_lower (py "It is an EMERGENCY, I want to give up"))) /\
  (exists k, In k urgent_keywords /\
             substr k (ascii_lower (py "It is an EMERGENCY, I want to give up"))) /\
  urgency_level
    (analyze_user_message ascii_lower (py "It is an EMERGENCY, I want to give up"))
  = py "high".
Proof.
  assert (Hc : exists k, In k crisis_keywords /\
             substr k (ascii_lower (py "It is an EMERGENCY, I want to give up"))).
  { exists (py "give up"). split; [simpl; tauto|].
    apply contains_spec. vm_compute. reflexivity. }
  split; [exact Hc|]. split.
  - exists (py "emergency"). split; [simpl; tauto|].
    apply contains_spec. vm_compute. reflexivity.
  - apply (proj1 (proj2 (proj2
      (urgency_level_priority ascii_lower (py "It is an EMERGENCY, I want to give up"))))).
    exact Hc.
Defined.

(** "I want to end it all" sent by a new user. *)
Lemma crisis_notice_only_in_response_witness :
  let req := {| message := py "I want to end it all"; user_id := py "ana" |} in
  let service := canned (Ok (py "  I hear you, and I am glad you told me.  ")) in
  is_crisis (analyze_user_message ascii_lower (message req)) = true /\
  exists db' resp db1 conversation history analysis reply stored,
    chat_endpoint ascii_lower basic_format service empty_db req noon = (db', Ok resp) /\
    chat_context ascii_lower empty_db req noon = (db1, conversation, history, analysis) /\
    generate_response basic_format service (user_id req) (message req) history analysis db1
      = Ok reply /\
    messages db' = messages db1 ++ [stored] /\
    m_role stored = py "assistant" /\
    m_content stored = reply /\
    m_id stored = message_id resp /\
    response resp = reply ++ crisis_notice /\
    substr crisis_notice (response resp).
Proof.
  intros req service.
  assert (Hcrisis : is_crisis (analyze_user_message ascii_lower (message req)) = true)
    by (vm_compute; reflexivity).
  split; [exact Hcrisis|].
  destruct (chat_endpoint ascii_lower basic_format service empty_db req noon)
    as [db' [resp|e]] eqn:E; [|vm_compute in E; discriminate].
  destruct (@crisis_notice_only_in_response ascii_lower basic_format service
              empty_db db' req noon resp Hcrisis E)
    as [db1 [conversation [history [analysis [reply [stored H]]]]]].
  exists db', resp, db1, conversation, history, analysis, reply, stored.
  split; [reflexivity | exact H].
Defined.

Lemma topics_top5_stable_witness :
  first_conversation_of sample_db (py "ana") = Some sample_conversation /\
  user_rows sample_db sample_conversation <> [] /\
  NoDup (map m_timestamp (user_rows sample_db sample_conversation)) /\
  getitem (get_user_sentiment_history ascii_lower sample_db (py "ana")) "topics"
  = Ok (VList [py "sleep"; py "helps,"; py "walking"; py "grateful"; py "things"]).
Proof.
  assert (Hc : first_conversation_of sample_db (py "ana") = Some sample_conversation)
    by reflexivity.
  assert (Hr : user_rows sample_db sample_conversation <> [])
    by (vm_compute; discriminate).
  assert (Hd : NoDup (map m_timestamp (user_rows sample_db sample_conversation))).
  { vm_compute. repeat constructor; simpl; intuition discriminate. }
  split; [exact Hc|]. split; [exact Hr|]. split; [exact Hd|].
  destruct (@topics_top5_stable ascii_lower sample_db (py "ana") sample_conversation
              Hc Hr Hd)
    as [_ [_ [_ [_ [_ [_ [_ [_ [_ [_ [Htopics _]]]]]]]]]]].
  rewrite Htopics. vm_compute. reflexivity.
Defined.

(** A new user who sends "I'm grateful and things are better" has a
    positive sentiment. *)
Lemma sentiment_majority_vote_witness :
  let db := fst (chat_endpoint ascii_lower basic_format (canned (Raise (ServiceError 503)))
                   empty_db
                   {| message := py "I'm grateful and things are better";
                      user_id := py "ana" |} noon) in
  first_conversation_of db (py "ana")
    = Some {| c_id := 1; c_user_id := py "ana"; c_created_at := 100; c_updated_at := 100 |} /\
  getitem (get_user_sentiment_history ascii_lower db (py "ana")) "sentiment"
  = Ok (VStr (py "positive")).
Proof.
  intros db.
  assert (Hc : first_conversation_of db (py "ana")
    = Some {| c_id := 1; c_user_id := py "ana"; c_created_at := 100; c_updated_at := 100 |})
    by reflexivity.
  split; [exact Hc|].
  assert (Hr : user_rows db {| c_id := 1; c_user_id := py "ana";
                               c_created_at := 100; c_updated_at := 100 |} <> [])
    by (vm_compute; discriminate).
  destruct (@sentiment_majority_vote ascii_lower db (py "ana") _ Hc Hr)
    as [_ [_ [_ [Hpos _]]]].
  apply Hpos. vm_compute. reflexivity.
Defined.

Lemma generate_response_never_raises_witness :
  generate_response basic_format (canned (Ok (py "  ok.  "))) (py "ana") (py "hello")
    [] (get_user_sentiment_history ascii_lower sample_db (py "ana")) sample_db
  = Ok short_reply_fallback /\
  generate_response basic_format (canned (Raise (ServiceError 429))) (py "ana") (py "hello")
    [] (get_user_sentiment_history ascii_lower sample_db (py "ana")) sample_db
  = Ok apology_fallback /\
  generate_response basic_format (canned (Ok (py "ok"))) (py "nobody") (py "hello")
    [] (get_user_sentiment_history ascii_lower sample_db (py "nobody")) sample_db
  = Ok apology_fallback.
Proof.
  split; [|split].
  - destruct (@generate_response_never_raises basic_format (canned (Ok (py "  ok.  ")))
                (py "ana") (py "hello") []
                (get_user_sentiment_history ascii_lower sample_db (py "ana")) sample_db)
      as [_ [_ Hcall]].
    eapply Hcall; [vm_compute; reflexivity | reflexivity | right; vm_compute; lia].
  - destruct (@generate_response_never_raises basic_format (canned (Raise (ServiceError 429)))
                (py "ana") (py "hello") []
                (get_user_sentiment_history ascii_lower sample_db (py "ana")) sample_db)
      as [_ [_ Hcall]].
    eapply Hcall; [vm_compute; reflexivity | reflexivity].
  - destruct (@generate_response_never_raises basic_format (canned (Ok (py "ok")))
                (py "nobody") (py "hello") []
                (get_user_sentiment_history ascii_lower sample_db (py "nobody")) sample_db)
      as [_ [Hprompt _]].
    apply (Hprompt (KeyError "total_messages")). vm_compute. reflexivity.
Defined.

(** Eleven rows of one user: "medium". *)
Lemma engagement_level_thresholds_witness :
  let db := post_many 8 sample_db in
  first_conversation_of db (py "ana") = Some sample_conversation /\
  user_rows db sample_conversation <> [] /\
  getitem (get_user_sentiment_history ascii_lower db (py "ana")) "total_messages"
    = Ok (VInt 11) /\
  getitem (get_user_sentiment_history ascii_lower db (py "ana")) "engagement_level"
    = Ok (VStr (py "medium")).
Proof.
  intros db.
  assert (Hc : first_conversation_of db (py "ana") = Some sample_conversation)
    by reflexivity.
  assert (Hr : user_rows db sample_conversation <> []) by (vm_compute; discriminate).
  split; [exact Hc|]. split; [exact Hr|].
  destruct (proj2 (@engagement_level_thresholds ascii_lower db (py "ana"))
              sample_conversation Hc Hr)
    as [level [Hlevel [Htotal [_ [_ [_ [_ [H11 _]]]]]]]].
  split; [rewrite Htotal; vm_compute; reflexivity|].
  rewrite Hlevel. do 2 f_equal. apply H11. vm_compute. reflexivity.
Defined.

(** C6 as stated fails for a user who never wrote: the claim gives "low"
    to a total of 0, the analysis has no [engagement_level]. *)
Lemma engagement_level_absent_counterexample :
  count_user_rows sample_db (py "nobody") = 0%Z /\
  get_user_sentiment_history ascii_lower sample_db (py "nobody")
  = [("message_count", VInt 0); ("topics", VList []);
     ("sentiment", VStr (py "neutral"))]%string /\
  getitem (get_user_sentiment_history ascii_lower sample_db (py "nobody"))
    "engagement_level" <> Ok (VStr (py "low")) /\
  getitem (get_user_sentiment_history ascii_lower sample_db (py "nobody"))
    "engagement_level" = Raise (KeyError "engagement_level").
Proof.
  repeat split; try reflexivity. vm_compute. discriminate.
Qed.

(** Ten rows give "low" and twenty-one give "high". *)
Example engagement_at_ten_and_twenty_one :
  getitem (get_user_sentiment_history ascii_lower (post_many 7 sample_db) (py "ana"))
    "total_messages" = Ok (VInt 10) /\
  getitem (get_user_sentiment_history ascii_lower (post_many 7 sample_db) (py "ana"))
    "engagement_level" = Ok (VStr (py "low")) /\
  getitem (get_user_sentiment_history ascii_lower (post_many 18 sample_db) (py "ana"))
    "total_messages" = Ok (VInt 21) /\
  getitem (get_user_sentiment_history ascii_lower (post_many 18 sample_db) (py "ana"))
    "engagement_level" = Ok (VStr (py "high")).
Proof. repeat split; vm_compute; reflexivity. Qed.

Lemma analysis_of_silent_user_witness :
  (forall c, In c (conversations sample_db) -> c_user_id c <> py "nobody") /\
  get_user_sentiment_history ascii_lower sample_db (py "nobody")
  = [("message_count", VInt 0); ("topics", VList []);
     ("sentiment", VStr (py "neutral"))]%string.
Proof.
  assert (H : forall c, In c (conversations sample_db) -> c_user_id c <> py "nobody").
  { intros c [<-|[]]. vm_compute. discriminate. }
  split; [exact H|].
  apply (@analysis_of_silent_user ascii_lower sample_db (py "nobody")). now left.
Defined.

(** A reply with a line feed. *)
Lemma response_html_line_breaks_witness :
  let req := {| message := py "hello"; user_id := py "ana" |} in
  let service := canned (Ok [72; 105; 32; 65; 110; 97; 46; 10; 87; 101; 108; 99; 111; 109; 101; 46]%N) in
  exists db' resp,
    chat_endpoint ascii_lower basic_format service sample_db req noon = (db', Ok resp) /\
    response_html resp = py "Hi Ana.<br>Welcome." /\
    ~ In 10%N (response_html resp).
Proof.
  intros req service.
  destruct (chat_endpoint ascii_lower basic_format service sample_db req noon)
    as [db' [resp|e]] eqn:E; [|vm_compute in E; discriminate].
  exists db', resp. split; [reflexivity|].
  destruct (@response_html_line_breaks ascii_lower basic_format service sample_db db'
              req noon resp E) as [Hhtml [Hnone _]].
  split; [|exact Hnone].
  rewrite Hhtml. vm_compute in E. injection E as _ <-. vm_compute. reflexivity.
Defined.

(** C9 as stated fails: the characters special in HTML reach
    [response_html] as they are. *)
Lemma response_html_escape_counterexample :
  let req := {| message := py "hello"; user_id := py "ana" |} in
  let service := canned (Ok (py "Rest & breathe: 4 > 2 and 2 < 4 <b>always</b>")) in
  exists db' resp,
    chat_endpoint ascii_lower basic_format service sample_db req noon = (db', Ok resp) /\
    response resp = py "Rest & breathe: 4 > 2 and 2 < 4 <b>always</b>" /\
    response_html resp = py "Rest & breathe: 4 > 2 and 2 < 4 <b>always</b>" /\
    spec_response_html (response resp)
      = py "Rest &amp; breathe: 4 &gt; 2 and 2 &lt; 4 &lt;b&gt;always&lt;/b&gt;" /\
    response_html resp <> spec_response_html (response resp).
Proof.
  intros req service. eexists _, _.
  split; [vm_compute; reflexivity|].
  split; [vm_compute; reflexivity|].
  split; [vm_compute; reflexivity|].
  split; [vm_compute; reflexivity|].
  vm_compute. discriminate.
Qed.

(** The second request of a user. *)
Lemma chat_analysis_populated_witness :
  let req := {| message := py "I feel overwhelmed"; user_id := py "ana" |} in
  exists db1 conversation history analysis,
    chat_context ascii_lower sample_db req noon = (db1, conversation, history, analysis) /\
    getitem analysis "message_count" = Ok (VInt 3) /\
    getitem analysis "total_messages" = Ok (VInt 4) /\
    analysis <> empty_analysis /\
    exists prompt,
      build_contextual_prompt basic_format (user_id req) (message req) history
        analysis db1 = Ok prompt.
Proof.
  intros req.
  destruct (chat_context ascii_lower sample_db req noon)
    as [[[db1 conversation] history] analysis] eqn:E.
  exists db1, conversation, history, analysis. split; [reflexivity|].
  destruct (@chat_analysis_populated ascii_lower basic_format
              (canned (Raise (ServiceError 500))) sample_db db1 req noon
              conversation history analysis E)
    as [_ [Ha [Hne [_ [_ [_ [_ [Hprompt _]]]]]]]].
  vm_compute in E. injection E as _ _ _ E.
  split; [rewrite <- E; reflexivity|].
  split; [rewrite <- E; reflexivity|].
  split; [exact Hne | exact Hprompt].
Defined.

(* ================================================================== *)
(** * Further properties of the store, the analysis and the handler *)

(** ** Conversations and messages *)

Lemma first_conversation_some (db : DB) (uid : str) (c : Conversation) :
  first_conversation_of db uid = Some c ->
  In c (conversations db) /\ c_user_id c = uid.
Proof.
  unfold first_conversation_of. intros H.
  apply find_some in H as [Hin E]. apply str_eqb_eq in E. now split.
Qed.

Lemma first_conversation_unique (db : DB) (uid : str) (c : Conversation) :
  NoDup (map c_user_id (conversations db)) ->
  In c (conversations db) -> c_user_id c = uid ->
  first_conversation_of db uid = Some c.
Proof.
  unfold first_conversation_of.
  induction (conversations db) as [|x l IH]; simpl; intros Hnd Hin Hu; [contradiction|].
  inversion Hnd as [|? ? Hnot Hnd']; subst.
  destruct (str_eqb (c_user_id x) (c_user_id c)) eqn:E.
  - destruct Hin as [->|Hin]; [reflexivity|].
    apply str_eqb_eq in E. elim Hnot. rewrite E. now apply in_map.
  - destruct Hin as [->|Hin]; [now rewrite str_eqb_refl in E | now apply IH].
Qed.

(** X1. [get_or_create_conversation] returns a conversation of the user that
    is in the store, leaves the messages alone, adds a row with the next
    key only when the user had none, and a second call finds the same
    conversation without changing the store. *)
Theorem get_or_create_conversation_idempotent (db : DB) (uid : str) (now later : Z) :
  let db1 := fst (get_or_create_conversation db uid now) in
  let c := snd (get_or_create_conversation db uid now) in
  c_user_id c = uid /\
  In c (conversations db1) /\
  messages db1 = messages db /\
  (first_conversation_of db uid = None ->
     conversations db1 = conversations db ++ [c] /\
     c_id c = (conversation_seq db + 1)%Z /\ c_created_at c = now) /\
  (forall c0, first_conversation_of db uid = Some c0 -> db1 = db /\ c = c0) /\
  get_or_create_conversation db1 uid later = (db1, c).
Proof.
  intros db1 c.
  destruct (get_or_create_conversation_found db uid now) as [Hfound Hmsgs].
  fold db1 in Hfound, Hmsgs. fold c in Hfound.
  destruct (first_conversation_some _ _ Hfound) as [Hin Hu].
  repeat split; try assumption.
  - subst db1 c. unfold get_or_create_conversation. now rewrite H.
  - subst db1 c. unfold get_or_create_conversation. now rewrite H.
  - subst db1 c. unfold get_or_create_conversation. now rewrite H.
  - subst db1 c. unfold get_or_create_conversation. now rewrite H.
  - subst db1 c. unfold get_or_create_conversation. now rewrite H.
  - unfold get_or_create_conversation at 1. now rewrite Hfound.
Qed.

Lemma NoDup_snoc {A} (l : list A) (x : A) :
  NoDup l -> ~ In x l -> NoDup (l ++ [x]).
Proof.
  induction l as [|y l IH]; simpl; intros Hnd Hx.
  - constructor; [tauto | constructor].
  - inversion Hnd as [|? ? Hy Hnd']; subst. constructor.
    + rewrite in_app_iff. simpl. intros [H|[H|[]]]; [tauto | subst; tauto].
    + apply IH; tauto.
Qed.

Lemma fresh_key {A} (key : A -> Z) (l : list A) (bound : Z) :
  (forall a, In a l -> (key a <= bound)%Z) -> ~ In (bound + 1)%Z (map key l).
Proof.
  intros H Hin. apply in_map_iff in Hin as [a [E Ha]]. apply H in Ha. lia.
Qed.

Lemma get_or_create_conversation_consistent (db : DB) (uid : str) (now : Z) :
  consistent db -> consistent (fst (get_or_create_conversation db uid now)).
Proof.
  intros [Hu Hcb Hci Hmb Hmi Hown]. unfold get_or_create_conversation.
  destruct (first_conversation_of db uid) as [c|] eqn:E; simpl.
  - now constructor.
  - assert (Hnew : forall c, In c (conversations db) -> c_user_id c <> uid)
      by now apply first_conversation_none.
    constructor; simpl.
    + rewrite map_app. simpl. apply NoDup_snoc; [assumption|].
      intros Hin. apply in_map_iff in Hin as [c [Hc Hin]]. now apply (Hnew c).
    + rewrite map_app. simpl. apply NoDup_snoc; [assumption|].
      now apply fresh_key.
    + intros c Hin. apply in_app_or in Hin as [Hin|[<-|[]]]; simpl.
      * apply Hci in Hin. lia.
      * lia.
    + assumption.
    + assumption.
    + intros m Hm. destruct (Hown m Hm) as [c [Hc Hcm]].
      exists c. split; [apply in_or_app; now left | assumption].
Qed.

Lemma save_message_consistent (db : DB) (uid : str) (cid : Z) (role content : str)
    (now : Z) :
  consistent db ->
  (exists c, In c (conversations db) /\ c_id c = cid /\ c_user_id c = uid) ->
  consistent (fst (save_message db uid cid role content now)).
Proof.
  intros [Hu Hcb Hci Hmb Hmi Hown] Hconv. unfold save_message.
  constructor; simpl; try assumption.
  - rewrite map_app. simpl. apply NoDup_snoc; [assumption|].
    now apply fresh_key.
  - intros m Hin. apply in_app_or in Hin as [Hin|[<-|[]]]; simpl.
    + apply Hmi in Hin. lia.
    + lia.
  - intros m Hin. apply in_app_or in Hin as [Hin|[<-|[]]]; simpl.
    + now apply Hown.
    + exact Hconv.
Qed.

Lemma NoDup_map_injective {A B} (f : A -> B) (l : list A) (a b : A) :
  NoDup (map f l) -> In a l -> In b l -> f a = f b -> a = b.
Proof.
  induction l as [|x l IH]; simpl; intros Hnd Ha Hb E; [contradiction|].
  inversion Hnd as [|? ? Hx Hnd']; subst.
  destruct Ha as [->|Ha], Hb as [->|Hb]; trivial.
  - elim Hx. rewrite E. now apply in_map.
  - elim Hx. rewrite <- E. now apply in_map.
  - now apply IH.
Qed.

Lemma ascending_snoc {A} (key : A -> Z) (l : list A) (x : A) :
  ascending key l -> Forall (fun a => (key a <= key x)%Z) l ->
  ascending key (l ++ [x]).
Proof.
  unfold ascending. induction l as [|y l IH]; simpl; intros Hs Hall.
  - constructor; constructor.
  - inversion Hs as [|? ? Hs' Hy]; subst.
    inversion Hall as [|? ? Hyx Hall']; subst.
    constructor; [now apply IH|].
    apply Forall_app. split; [assumption | now constructor].
Qed.

Lemma descending_rev {A} (key : A -> Z) (l : list A) :
  descending key l -> ascending key (rev l).
Proof.
  unfold descending. induction l as [|x l IH]; simpl; intros Hs.
  - constructor.
  - inversion Hs as [|? ? Hs' Hx]; subst.
    apply ascending_snoc; [now apply IH|].
    apply Forall_rev. exact Hx.
Qed.

Lemma descending_prefix {A} (key : A -> Z) (l1 l2 : list A) :
  descending key (l1 ++ l2) -> descending key l1.
Proof.
  unfold descending. induction l1 as [|x l1 IH]; simpl; intros Hs.
  - constructor.
  - inversion Hs as [|? ? Hs' Hx]; subst. constructor; [now apply IH|].
    apply Forall_app in Hx. tauto.
Qed.

Lemma ascending_turns (rows : list Message) :
  ascending m_timestamp rows -> ascending t_timestamp (map turn_of rows).
Proof.
  unfold ascending. induction rows as [|m rows IH]; simpl; intros Hs.
  - constructor.
  - inversion Hs as [|? ? Hs' Hm]; subst. constructor; [now apply IH|].
    apply Forall_map. exact Hm.
Qed.

Lemma get_conversation_history_rows (db : DB) (uid : str) (limit : nat)
    (c : Conversation) :
  first_conversation_of db uid = Some c ->
  get_conversation_history db uid limit
  = map turn_of (rev (newest limit (conversation_rows db c))).
Proof. intros H. unfold get_conversation_history. now rewrite H. Qed.

(** X3. [get_conversation_history] returns at most [limit] turns, oldest first;
    they are the newest rows of the conversation of the user, of either
    role: together with the older rows left out they are the whole
    conversation in time order.  A user without a conversation has an empty
    history. *)
Theorem get_conversation_history_oldest_first (db : DB) (uid : str) (limit : nat) :
  let history := get_conversation_history db uid limit in
  (List.length history <= limit)%nat /\
  ascending t_timestamp history /\
  (first_conversation_of db uid = None -> history = []) /\
  (forall c, first_conversation_of db uid = Some c ->
     exists older,
       Permutation (older ++ history) (map turn_of (conversation_rows db c)) /\
       ascending t_timestamp (older ++ history) /\
       (List.length history = limit \/ older = [])).
Proof.
  intros history. subst history.
  destruct (first_conversation_of db uid) as [c|] eqn:Hc.
  - rewrite (get_conversation_history_rows db uid limit Hc).
    destruct (newest_split limit (conversation_rows db c))
      as [rest [Hperm [Hdesc Hlen]]].
    rewrite length_map, length_rev.
    split.
    { unfold newest. rewrite length_firstn. lia. }
    split.
    { apply ascending_turns, descending_rev.
      eapply descending_prefix. exact Hdesc. }
    split; [discriminate|].
    intros c' E. injection E as <-.
    exists (map turn_of (rev rest)). rewrite <- map_app, <- rev_app_distr.
    split; [|split].
    + apply Permutation_map. eapply perm_trans; [|exact Hperm].
      apply Permutation_sym, Permutation_rev.
    + now apply ascending_turns, descending_rev.
    + destruct Hlen as [Hlen | ->]; [left; exact Hlen | right; reflexivity].
  - unfold get_conversation_history. rewrite Hc. simpl.
    split; [lia|]. split; [constructor|]. split; [reflexivity | discriminate].
Qed.

Lemma sorted_desc_newest_last {A} (key : A -> Z) (l : list A) (x : A) :
  (forall a, In a l -> (key a < key x)%Z) ->
  sorted_desc key (l ++ [x]) = x :: sorted_desc key l.
Proof.
  induction l as [|y l IH]; simpl; intros H; [reflexivity|].
  rewrite IH by (intros a Ha; apply H; now right). simpl.
  destruct (Z.leb_spec (key x) (key y)) as [Hle|Hlt]; [|reflexivity].
  specialize (H y (or_introl eq_refl)). lia.
Qed.

Lemma conversation_rows_save (db : DB) (uid : str) (cid : Z) (role content : str)
    (now : Z) (c : Conversation) :
  conversation_rows (fst (save_message db uid cid role content now)) c
  = conversation_rows db c
    ++ (if (cid =? c_id c)%Z then [snd (save_message db uid cid role content now)]
        else []).
Proof. unfold conversation_rows, save_message. simpl. now rewrite filter_app. Qed.

(** X4. When the rows of the conversation of a user have pairwise distinct
    time stamps, a message saved in it with a time stamp newer than all of
    them is the last turn of the history read back, and the turns before
    it are the history as it was, one shorter. *)
Theorem get_conversation_history_after_save (db : DB) (uid role content : str)
    (now : Z) (limit : nat) (c : Conversation) :
  first_conversation_of db uid = Some c ->
  NoDup (map m_timestamp (conversation_rows db c)) ->
  (forall m, In m (conversation_rows db c) -> (m_timestamp m < now)%Z) ->
  let db1 := fst (save_message db uid (c_id c) role content now) in
  NoDup (map m_timestamp (conversation_rows db1 c)) /\
  get_conversation_history db1 uid (S limit)
  = get_conversation_history db uid limit
    ++ [{| t_role := role; t_content := content; t_timestamp := now |}].
Proof.
  intros Hc Hdistinct Hnew db1. subst db1. split.
  - rewrite conversation_rows_save, Z.eqb_refl, map_app. simpl.
    apply NoDup_snoc; [exact Hdistinct|].
    intros Hin. apply in_map_iff in Hin as [m [E Hm]].
    apply Hnew in Hm. lia.
  - assert (Hc' : first_conversation_of
                    (fst (save_message db uid (c_id c) role content now)) uid = Some c)
      by exact Hc.
    rewrite (get_conversation_history_rows _ uid (S limit) Hc').
    rewrite (get_conversation_history_rows db uid limit Hc).
    rewrite conversation_rows_save, Z.eqb_refl.
    unfold newest. rewrite sorted_desc_newest_last by exact Hnew.
    simpl. now rewrite map_app.
Qed.

Lemma get_conversation_history_after_save_witness :
  first_conversation_of sample_db (py "ana") = Some sample_conversation /\
  NoDup (map m_timestamp (conversation_rows sample_db sample_conversation)) /\
  (forall m, In m (conversation_rows sample_db sample_conversation) ->
             (m_timestamp m < 14)%Z) /\
  get_conversation_history
    (fst (save_message sample_db (py "ana") 1 (py "user") (py "one more") 14))
    (py "ana") 3
  = get_conversation_history sample_db (py "ana") 2
    ++ [{| t_role := py "user"; t_content := py "one more"; t_timestamp := 14 |}].
Proof.
  assert (Hc : first_conversation_of sample_db (py "ana") = Some sample_conversation)
    by reflexivity.
  assert (Hd : NoDup (map m_timestamp (conversation_rows sample_db sample_conversation))).
  { vm_compute. repeat constructor; simpl; intuition discriminate. }
  assert (Hnew : forall m, In m (conversation_rows sample_db sample_conversation) ->
                           (m_timestamp m < 14)%Z).
  { intros m Hm. vm_compute in Hm.
    destruct Hm as [<-|[<-|[<-|[]]]]; simpl; lia. }
  split; [exact Hc|]. split; [exact Hd|]. split; [exact Hnew|].
  exact (proj2 (@get_conversation_history_after_save sample_db (py "ana") (py "user")
                  (py "one more") 14 2 sample_conversation Hc Hd Hnew)).
Defined.

Lemma count_user_rows_save_other (db : DB) (uid other : str) (cid : Z)
    (role content : str) (now : Z) :
  other <> uid ->
  count_user_rows (fst (save_message db uid cid role content now)) other
  = count_user_rows db other.
Proof.
  intros Hother. unfold count_user_rows, save_message. simpl.
  rewrite filter_app. simpl.
  destruct (str_eqb uid other) eqn:E.
  - apply str_eqb_eq in E. congruence.
  - now rewrite app_nil_r.
Qed.

Lemma empty_db_consistent : consistent empty_db.
Proof.
  constructor; simpl; try constructor; intros x [].
Qed.

(** X2. The constraints of the schema are kept by the service: the empty store
    is consistent, and in a consistent store looking up or creating the
    conversation of a user and then saving a message of that user in it
    gives a consistent store again, in which the new row has a key no other
    row has. *)
Theorem database_service_keeps_consistent (db : DB) (uid role content : str)
    (now later : Z) :
  consistent db ->
  let db1 := fst (get_or_create_conversation db uid now) in
  let c := snd (get_or_create_conversation db uid now) in
  let db2 := fst (save_message db1 uid (c_id c) role content later) in
  let row := snd (save_message db1 uid (c_id c) role content later) in
  consistent db1 /\ consistent db2 /\
  (forall m, In m (messages db) -> m_id m <> m_id row) /\
  (forall c', In c' (conversations db2) -> c_user_id c' = uid -> c' = c).
Proof.
  intros Hdb db1 c db2 row.
  assert (H1 : consistent db1) by now apply get_or_create_conversation_consistent.
  destruct (get_or_create_conversation_found db uid now) as [Hfound Hmsgs].
  fold db1 in Hfound, Hmsgs. fold c in Hfound.
  destruct (first_conversation_some _ _ Hfound) as [Hin Hu].
  split; [exact H1|]. split; [|split].
  - apply save_message_consistent; [exact H1|]. now exists c.
  - intros m Hm. rewrite <- Hmsgs in Hm.
    apply (issued_message_ids H1) in Hm. simpl. lia.
  - intros c' Hc' Hu'. simpl in Hc'.
    apply (NoDup_map_injective c_user_id (conversations db1)); trivial.
    + apply (unique_users H1).
    + congruence.
Qed.

Lemma database_service_keeps_consistent_witness :
  consistent empty_db /\
  consistent
    (fst (save_message (fst (get_or_create_conversation empty_db (py "ana") 1))
            (py "ana")
            (c_id (snd (get_or_create_conversation empty_db (py "ana") 1)))
            (py "user") (py "hello") 2)).
Proof.
  split; [exact empty_db_consistent|].
  exact (proj1 (proj2 (@database_service_keeps_consistent empty_db (py "ana")
                         (py "user") (py "hello") 1 2 empty_db_consistent))).
Defined.

(** ** Counting rows *)

Lemma consistent_rows_of_user (db : DB) (uid : str) (c : Conversation) (m : Message) :
  consistent db -> first_conversation_of db uid = Some c -> In m (messages db) ->
  (m_conversation_id m =? c_id c)%Z = str_eqb (m_user_id m) uid.
Proof.
  intros Hdb Hc Hm.
  destruct (first_conversation_some _ _ Hc) as [Hin Hu].
  destruct (message_owner Hdb m Hm) as [c' [Hin' [Hid Huser]]].
  destruct (Z.eqb_spec (m_conversation_id m) (c_id c)) as [E|N];
    destruct (str_eqb (m_user_id m) uid) eqn:Eu; trivial.
  - apply str_eqb_neq in Eu. elim Eu.
    assert (c' = c).
    { apply (NoDup_map_injective c_id (conversations db)); trivial.
      - apply (unique_conversation_ids Hdb).
      - congruence. }
    congruence.
  - apply str_eqb_eq in Eu. elim N.
    assert (c' = c).
    { apply (NoDup_map_injective c_user_id (conversations db)); trivial.
      - apply (unique_users Hdb).
      - congruence. }
    congruence.
Qed.

Lemma conversation_rows_count (db : DB) (uid : str) (c : Conversation) :
  consistent db -> first_conversation_of db uid = Some c ->
  Z.of_nat (List.length (conversation_rows db c)) = count_user_rows db uid.
Proof.
  intros Hdb Hc. unfold conversation_rows, count_user_rows. do 2 f_equal.
  apply filter_ext_in. intros m Hm. eapply consistent_rows_of_user; eassumption.
Qed.

Lemma filter_none {A} (f : A -> bool) (l : list A) :
  (forall x, In x l -> f x = false) -> filter f l = [].
Proof.
  induction l as [|x l IH]; simpl; intros H; [reflexivity|].
  rewrite (H x (or_introl eq_refl)). apply IH. intros y Hy. apply H. now right.
Qed.

Lemma no_conversation_no_rows (db : DB) (uid : str) :
  consistent db -> first_conversation_of db uid = None ->
  count_user_rows db uid = 0%Z.
Proof.
  intros Hdb Hc. unfold count_user_rows.
  rewrite filter_none; [reflexivity|].
  intros m Hm. apply str_eqb_neq.
  destruct (message_owner Hdb m Hm) as [c [Hin [_ Hu]]].
  rewrite <- Hu. now apply (proj1 (first_conversation_none db uid) Hc).
Qed.

(** X5. [get_user_conversation_summary] reports no conversation and no message
    for a user without a conversation, and otherwise one conversation, its
    creation and update times and the number of its rows of either role.
    On a consistent store that number is the number of all rows recorded
    for the user, the [total_messages] of the analysis. *)
Theorem get_user_conversation_summary_counts (db : DB) (uid : str) :
  let summary := get_user_conversation_summary db uid in
  (first_conversation_of db uid = None ->
     summary = {| total_conversations := 0; total_messages := 0;
                  first_conversation := None; last_conversation := None |}) /\
  (forall c, first_conversation_of db uid = Some c ->
     total_conversations summary = 1%Z /\
     total_messages summary = Z.of_nat (List.length (conversation_rows db c)) /\
     first_conversation summary = Some (c_created_at c) /\
     last_conversation summary = Some (c_updated_at c)) /\
  (consistent db -> total_messages summary = count_user_rows db uid).
Proof.
  intros summary. subst summary. unfold get_user_conversation_summary.
  destruct (first_conversation_of db uid) as [c|] eqn:Hc.
  - split; [discriminate|]. split.
    + intros c' E. injection E as <-. repeat split.
    + intros Hdb. simpl. now apply conversation_rows_count.
  - split; [reflexivity|]. split; [discriminate|].
    intros Hdb. simpl. symmetry. now apply no_conversation_no_rows.
Qed.

(** ** The analysis *)

Lemma NoDup_firstn {A} (n : nat) (l : list A) : NoDup l -> NoDup (firstn n l).
Proof.
  revert n. induction l as [|x l IH]; intros [|n] Hnd; simpl; try constructor.
  - inversion Hnd as [|? ? Hx Hnd']; subst.
    intros Hin. apply Hx. revert Hin. clear.
    revert n. induction l as [|y l IH]; intros [|n]; simpl; try tauto.
    intros [H|H]; [now left | right; eapply IH; eassumption].
  - inversion Hnd; subst. now apply IH.
Qed.

Lemma In_firstn {A} (n : nat) (l : list A) (x : A) : In x (firstn n l) -> In x l.
Proof.
  revert n. induction l as [|y l IH]; intros [|n]; simpl; try tauto.
  intros [H|H]; [now left | right; eapply IH; eassumption].
Qed.

Lemma filter_and_length {A} (f g : A -> bool) (l : list A) :
  (List.length (filter (fun a => f a && g a) l) <= List.length (filter f l))%nat.
Proof.
  induction l as [|x l IH]; simpl; [lia|].
  destruct (f x), (g x); simpl; lia.
Qed.

Section AnalysisShape.

Variable lower : str -> str.

(** X6. The topics of an analysis are at most 5 distinct tokens, each of more
    than 3 code points, without white space, and occurring in a message of
    the user as lower-cased. *)
Theorem topics_distinct_long_tokens (db : DB) (uid : str) :
  exists topics,
    getitem (get_user_sentiment_history lower db uid) "topics" = Ok (VList topics) /\
    (List.length topics <= 5)%nat /\
    NoDup topics /\
    forall w, In w topics ->
      (len w > 3)%Z /\ is_token w /\
      exists c, first_conversation_of db uid = Some c /\
                In w (words_of lower (user_messages_of db c)).
Proof.
  destruct (analysis_cases lower db uid) as [[He _] | [c [Hc [_ Hne]]]].
  - rewrite He. exists []. repeat split; simpl; try lia; try constructor; contradiction.
  - rewrite (analysis_of_active_user lower db uid Hc Hne).
    eexists. split; [reflexivity|]. unfold top_topics.
    set (words := words_of lower (user_messages_of db c)).
    split; [rewrite length_map, length_firstn; lia|]. split.
    + rewrite <- firstn_map. apply NoDup_firstn.
      eapply Permutation_NoDup.
      * apply Permutation_sym, Permutation_map, sorted_desc_perm.
      * rewrite build_word_freq_keys. apply first_seen_nodup.
    + intros w Hw. apply in_map_iff in Hw as [[w' n] [E Hin]]. simpl in E. subst w'.
      apply In_firstn in Hin.
      apply (Permutation_in _ (sorted_desc_perm snd (build_word_freq words))) in Hin.
      apply build_word_freq_entry in Hin as [_ [Hlen Hin]].
      split; [exact Hlen|]. split.
      * destruct (split_tokens
                    (join (py " ")
                       (map (fun msg => lower (m_content msg)) (user_messages_of db c))))
          as [Htok _].
        rewrite Forall_forall in Htok. now apply Htok.
      * exists c. now split.
Qed.

(** X7. [message_count] is the number of user-role rows of the conversation,
    capped at 50 (0 without a conversation); on a consistent store it never
    exceeds [total_messages]. *)
Theorem message_count_bounds (db : DB) (uid : str) :
  exists n,
    getitem (get_user_sentiment_history lower db uid) "message_count" = Ok (VInt n) /\
    (0 <= n <= 50)%Z /\
    (first_conversation_of db uid = None -> n = 0%Z) /\
    (forall c, first_conversation_of db uid = Some c ->
       n = Z.min 50 (Z.of_nat (List.length (user_rows db c)))) /\
    (consistent db ->
     forall total,
       getitem (get_user_sentiment_history lower db uid) "total_messages" = Ok total ->
       exists t, total = VInt t /\ (n <= t)%Z).
Proof.
  assert (Hlen : forall c,
    Z.of_nat (List.length (user_messages_of db c))
    = Z.min 50 (Z.of_nat (List.length (user_rows db c)))).
  { intros c. unfold user_messages_of, newest. fold (user_rows db c).
    rewrite length_firstn.
    rewrite (Permutation_length (sorted_desc_perm m_timestamp (user_rows db c))).
    lia. }
  destruct (analysis_cases lower db uid) as [[He Hwhy] | [c [Hc [_ Hne]]]].
  - rewrite He. exists 0%Z. split; [reflexivity|]. split; [lia|].
    split; [reflexivity|]. split.
    + intros c Hc. destruct Hwhy as [Hnone | [c' [Hc' Hrows]]]; [congruence|].
      assert (c' = c) by congruence. subst c'. rewrite Hrows. reflexivity.
    + intros _ total H. discriminate.
  - rewrite (analysis_of_active_user lower db uid Hc Hne).
    eexists. split; [reflexivity|]. rewrite Hlen.
    split; [lia|]. split; [congruence|]. split.
    + intros c' E. rewrite Hc in E. now injection E as <-.
    + intros Hdb total H. cbn [getitem String.eqb Ascii.eqb Bool.eqb] in H.
      injection H as <-. eexists. split; [reflexivity|].
      rewrite <- (@conversation_rows_count db uid c Hdb Hc).
      pose proof (filter_and_length
                    (fun m => (m_conversation_id m =? c_id c)%Z)
                    (fun m => str_eqb (m_role m) (py "user")) (messages db)) as Hle.
      unfold user_rows, conversation_rows. lia.
Qed.

End AnalysisShape.

(** ** The classifier, the greeting and the gateway *)

Lemma contains_char (c : N) (s : str) : contains [c] s = true <-> In c s.
Proof.
  rewrite contains_spec. unfold substr. split.
  - intros [pre [post ->]]. apply in_or_app. right. now left.
  - intros H. apply in_split in H as [pre [post ->]]. now exists pre, post.
Qed.

(** X8. Every flag of [analyze_user_message] is a sub-string test of its
    keyword list on the lower-cased message; [has_question] and
    [message_length] read the message as sent; and [urgency_level] tells
    the two urgency flags back: "high" exactly when the crisis flag is set,
    "medium" exactly when only the urgent flag is, "low" exactly when
    neither is. *)
Theorem analyze_user_message_flags (lower : str -> str) (msg : str) :
  let a := analyze_user_message lower msg in
  let hit keywords := exists k, In k keywords /\ substr k (lower msg) in
  (is_crisis a = true <-> hit crisis_keywords) /\
  (is_urgent a = true <-> hit urgent_keywords) /\
  (is_positive a = true <-> hit positive_keywords) /\
  (is_negative a = true <-> hit negative_keywords) /\
  (is_wellness a = true <-> hit wellness_keywords) /\
  (has_question a = true <-> In 63%N msg) /\
  message_length a = Z.of_nat (List.length msg) /\
  (urgency_level a = py "high" <-> is_crisis a = true) /\
  (urgency_level a = py "medium" <-> is_crisis a = false /\ is_urgent a = true) /\
  (urgency_level a = py "low" <-> is_crisis a = false /\ is_urgent a = false).
Proof.
  intros a hit. subst a hit. unfold analyze_user_message. cbn -[py any_in].
  repeat (split; [apply any_in_spec|]).
  split; [apply (contains_char 63 msg)|].
  split; [reflexivity|].
  destruct level_names_distinct as [Hhm [Hhl Hml]].
  destruct (any_in crisis_keywords (lower msg)),
           (any_in urgent_keywords (lower msg));
    repeat split; intros; try reflexivity; try congruence;
    try (destruct H; congruence).
Qed.

Lemma greetings_distinct :
  first_time_greeting <> welcome_back_greeting /\
  first_time_greeting <> positive_mood_greeting /\
  first_time_greeting <> listening_greeting /\
  first_time_greeting <> default_greeting.
Proof. repeat split; intros H; vm_compute in H; discriminate. Qed.

Lemma py_eq_str (v : pyval) (s : str) : py_eq v (VStr s) = true <-> v = VStr s.
Proof.
  destruct v; simpl; split; try discriminate.
  - intros H. apply str_eqb_eq in H. now subst.
  - intros H. injection H as ->. apply str_eqb_refl.
Qed.

Section Greeting.

Variable lower : str -> str.

(** X9. [get_personalized_greeting] on what [get_user_sentiment_history]
    returns for a consistent store: it raises [KeyError] for a user without
    user-role messages, whose analysis has no [total_messages]; for any
    other user it never gives the first-time greeting, gives the
    welcome-back greeting exactly when the user has more than 20 rows, and
    otherwise chooses by sentiment. *)
Theorem get_personalized_greeting_of_history (db : DB) (uid : str) :
  consistent db ->
  let analysis := get_user_sentiment_history lower db uid in
  ((first_conversation_of db uid = None \/
    exists c, first_conversation_of db uid = Some c /\ user_rows db c = []) ->
   get_personalized_greeting uid analysis = Raise (KeyError "total_messages")) /\
  (forall c, first_conversation_of db uid = Some c -> user_rows db c <> [] ->
   exists greeting sentiment,
     get_personalized_greeting uid analysis = Ok greeting /\
     getitem analysis "sentiment" = Ok (VStr sentiment) /\
     greeting <> first_time_greeting /\
     (greeting = welcome_back_greeting <-> (count_user_rows db uid > 20)%Z) /\
     ((count_user_rows db uid <= 20)%Z ->
        (sentiment = py "positive" -> greeting = positive_mood_greeting) /\
        (sentiment = py "negative" -> greeting = listening_greeting) /\
        (sentiment = py "neutral" -> greeting = default_greeting))).
Proof.
  intros Hdb analysis. subst analysis. split.
  - intros Hsilent.
    assert (He : get_user_sentiment_history lower db uid = empty_analysis).
    { unfold get_user_sentiment_history. destruct Hsilent as [H | [c [Hc Hr]]].
      - now rewrite H.
      - rewrite Hc. now rewrite (user_messages_empty db c Hr). }
    rewrite He. reflexivity.
  - intros c Hc Hrows.
    assert (Hne : user_messages_of db c <> []) by now apply user_messages_nonempty.
    assert (Hpos : (count_user_rows db uid >= 1)%Z).
    { rewrite <- (@conversation_rows_count db uid c Hdb Hc).
      pose proof (filter_and_length
                    (fun m => (m_conversation_id m =? c_id c)%Z)
                    (fun m => str_eqb (m_role m) (py "user")) (messages db)) as Hle.
      change (List.length (user_rows db c) <= List.length (conversation_rows db c))%nat
        in Hle.
      destruct (user_rows db c); [now elim Hrows | simpl in Hle; lia]. }
    rewrite (analysis_of_active_user lower db uid Hc Hne).
    unfold get_personalized_greeting.
    cbn [getitem String.eqb Ascii.eqb Bool.eqb bind py_eq].
    set (total := count_user_rows db uid) in *.
    set (words := words_of lower (user_messages_of db c)).
    destruct (Z.eqb_spec total 0) as [E0|_]; [lia|].
    destruct greetings_distinct as [G1 [G2 [G3 G4]]].
    destruct level_names_distinct as [Hhm [Hhl Hml]].
    assert (Hpn : py "positive" <> py "negative") by (intros H; vm_compute in H; discriminate).
    assert (Hpu : py "positive" <> py "neutral") by (intros H; vm_compute in H; discriminate).
    assert (Hnu : py "negative" <> py "neutral") by (intros H; vm_compute in H; discriminate).
    assert (W1 : welcome_back_greeting <> positive_mood_greeting)
      by (intros H; vm_compute in H; discriminate).
    assert (W2 : welcome_back_greeting <> listening_greeting)
      by (intros H; vm_compute in H; discriminate).
    assert (W3 : welcome_back_greeting <> default_greeting)
      by (intros H; vm_compute in H; discriminate).
    destruct (Z.gtb_spec total 20) as [G20|G20].
    + rewrite str_eqb_refl. cbn [bind].
      eexists _, _. split; [reflexivity|]. split; [reflexivity|].
      split; [congruence|]. split; [split; [lia | reflexivity]|]. lia.
    + assert (Hnh : str_eqb (if (total >? 10)%Z then py "medium" else py "low")
                            (py "high") = false).
      { apply str_eqb_neq. destruct (total >? 10)%Z; congruence. }
      rewrite Hnh. cbn [bind].
      destruct (count_in positive_words words >? count_in negative_words words)%Z.
      * rewrite str_eqb_refl.
        eexists _, _. split; [reflexivity|]. split; [reflexivity|].
        split; [congruence|]. split; [split; [congruence | lia]|].
        intros _. repeat split; congruence.
      * destruct (count_in negative_words words >? count_in positive_words words)%Z.
        -- assert (E1 : str_eqb (py "negative") (py "positive") = false) by reflexivity.
           rewrite E1, str_eqb_refl.
           eexists _, _. split; [reflexivity|]. split; [reflexivity|].
           split; [congruence|]. split; [split; [congruence | lia]|].
           intros _. repeat split; congruence.
        -- assert (E1 : str_eqb (py "neutral") (py "positive") = false) by reflexivity.
           assert (E2 : str_eqb (py "neutral") (py "negative") = false) by reflexivity.
           rewrite E1, E2.
           eexists _, _. split; [reflexivity|]. split; [reflexivity|].
           split; [congruence|]. split; [split; [congruence | lia]|].
           intros _. repeat split; congruence.
Qed.

End Greeting.

Lemma lstrip_fixed (s : str) :
  match s with [] => True | c :: _ => isspace c = false end -> lstrip s = s.
Proof. destruct s as [|c s]; simpl; [reflexivity|]. now intros ->. Qed.

Lemma strip_idempotent (s : str) : strip (strip s) = strip s.
Proof.
  destruct (strip_spec s) as [pre [post [_ [_ [_ [Hhead Hlast]]]]]].
  unfold strip at 1. rewrite (lstrip_fixed _ Hhead).
  unfold rstrip. rewrite (lstrip_fixed _ Hlast). apply rev_involutive.
Qed.

Section Replies.

Variable py_format : pyval -> str.
Variable generate_content : str -> result str.

(** X10. Whatever the completion service does, the text [generate_response]
    returns has at least 10 code points and no white space at either end. *)
Theorem generate_response_reply_shape (uid msg : str) (history : list Turn)
    (analysis : dict) (db : DB) :
  exists reply,
    generate_response py_format generate_content uid msg history analysis db = Ok reply /\
    (10 <= List.length reply)%nat /\
    strip reply = reply.
Proof.
  assert (Hs : (10 <= List.length short_reply_fallback)%nat /\
               strip short_reply_fallback = short_reply_fallback)
    by (split; [vm_compute; lia | vm_compute; reflexivity]).
  assert (Ha : (10 <= List.length apology_fallback)%nat /\
               strip apology_fallback = apology_fallback)
    by (split; [vm_compute; lia | vm_compute; reflexivity]).
  destruct (build_contextual_prompt py_format uid msg history analysis db)
    as [prompt|e] eqn:Hp.
  - destruct (generate_content prompt) as [text|e] eqn:Hc.
    + rewrite (generate_response_call_success py_format generate_content
                 uid msg history analysis db Hp Hc).
      destruct (Nat.ltb_spec (List.length (strip text)) 10).
      * exists short_reply_fallback. tauto.
      * exists (strip text). repeat split; [assumption | apply strip_idempotent].
    + rewrite (generate_response_call_failure py_format generate_content
                 uid msg history analysis db Hp Hc).
      exists apology_fallback. tauto.
  - rewrite (generate_response_prompt_failure py_format generate_content
               uid msg history analysis db Hp).
    exists apology_fallback. tauto.
Qed.

End Replies.

(** ** The prompt *)

Lemma join_snoc (sep : str) (parts : list str) (last : str) :
  parts <> [] -> join sep (parts ++ [last]) = join sep parts ++ sep ++ last.
Proof.
  induction parts as [|p parts IH]; intros Hne; [now elim Hne|].
  destruct parts as [|q parts].
  - reflexivity.
  - change (join sep ((p :: q :: parts) ++ [last]))
      with (p ++ sep ++ join sep ((q :: parts) ++ [last])).
    rewrite IH by discriminate.
    change (join sep (p :: q :: parts)) with (p ++ sep ++ join sep (q :: parts)).
    now rewrite <- !app_assoc.
Qed.

Lemma last6_suffix (history : list Turn) :
  exists older,
    history = older ++ last6 history /\
    List.length (last6 history) = Nat.min 6 (List.length history).
Proof.
  exists (firstn (List.length history - 6) history). unfold last6. split.
  - symmetry. apply firstn_skipn.
  - rewrite length_skipn. lia.
Qed.

Section Prompt.

Variable py_format : pyval -> str.

(** X11. [build_contextual_prompt] returns exactly for the analyses that carry
    an integer [total_messages] and, when it is positive, the keys
    [engagement_level], [sentiment], [topics] (empty or a sequence of
    strings) and [last_message_time]; the analysis of a user without
    messages is refused with [KeyError]. *)
Theorem build_contextual_prompt_accepts (uid msg : str) (history : list Turn)
    (ua : dict) (db : DB) :
  ((exists prompt, build_contextual_prompt py_format uid msg history ua db = Ok prompt)
   <->
   exists total,
     getitem ua "total_messages" = Ok (VInt total) /\
     ((total > 0)%Z ->
      exists engagement sentiment topics last,
        getitem ua "engagement_level" = Ok engagement /\
        getitem ua "sentiment" = Ok sentiment /\
        getitem ua "topics" = Ok topics /\
        getitem ua "last_message_time" = Ok last /\
        (truthy topics = true -> exists joined, join_val (py ", ") topics = Ok joined))) /\
  build_contextual_prompt py_format uid msg history empty_analysis db
    = Raise (KeyError "total_messages").
Proof.
  split; [|reflexivity]. split.
  - intros [prompt H]. unfold build_contextual_prompt in H.
    destruct (context_parts py_format uid msg history ua db) as [parts|e] eqn:Hp;
      [|discriminate].
    apply context_parts_inv in Hp as [total [lines [Ht [Hlines _]]]].
    exists total. split; [exact Ht|]. intros Hpos.
    destruct (Z.gtb_spec total 0); [|lia].
    apply profile_lines_inv in Hlines
      as [engagement [sentiment [topics [last [He [Hs [Htp [Hl [tl [Htl _]]]]]]]]]].
    exists engagement, sentiment, topics, last. repeat (split; [assumption|]).
    intros Htruthy. rewrite Htruthy in Htl. destruct Htl as [joined [Hj _]].
    now exists joined.
  - intros [total [Ht Hkeys]].
    unfold build_contextual_prompt, context_parts. rewrite Ht.
    cbn [bind gt0]. destruct (Z.gtb_spec total 0) as [Hpos|Hnon].
    + destruct Hkeys as [engagement [sentiment [topics [last [He [Hs [Htp [Hl Hj]]]]]]]];
        [lia|].
      unfold profile_lines. rewrite He, Hs, Htp, Hl. cbn [bind].
      destruct (truthy topics).
      * destruct Hj as [joined Hj]; [reflexivity|]. rewrite Hj. cbn [bind].
        eexists; reflexivity.
      * cbn [bind]. eexists; reflexivity.
    + cbn [bind]. eexists; reflexivity.
Qed.

(** X12. A prompt opens with the persona paragraph and the profile header of
    the user and closes with the current message and the cue for the
    reply; when there is a history, the lines before these are its last 6
    turns at most, in order, under their heading. *)
Theorem build_contextual_prompt_frame (uid msg : str) (history : list Turn)
    (ua : dict) (db : DB) (prompt : str) :
  build_contextual_prompt py_format uid msg history ua db = Ok prompt ->
  (exists middle,
     prompt = system_prompt ++ nl ++ header_line uid ++ middle
              ++ nl ++ (nl ++ py "Current User Message: " ++ msg)
              ++ nl ++ (nl ++ py "Assistant:")) /\
  (exists parts before older,
     prompt = join nl parts /\
     parts = before
             ++ match history with
                | [] => []
                | _ :: _ => (nl ++ py "Recent Conversation History:")
                            :: map history_line (last6 history)
                end
             ++ [nl ++ py "Current User Message: " ++ msg; nl ++ py "Assistant:"] /\
     history = older ++ last6 history /\
     List.length (last6 history) = Nat.min 6 (List.length history)).
Proof.
  intros H. unfold build_contextual_prompt in H.
  destruct (context_parts py_format uid msg history ua db) as [parts|e] eqn:Hp;
    [|discriminate].
  cbn [bind] in H. injection H as <-.
  apply context_parts_inv in Hp as [total [lines [_ [_ ->]]]].
  unfold closing_parts.
  set (summary_part := if (_ >? 0)%Z then _ else _).
  set (history_part := match history with [] => [] | _ :: _ => _ end).
  set (current := nl ++ py "Current User Message: " ++ msg).
  set (cue := nl ++ py "Assistant:").
  split.
  - set (rest := lines ++ summary_part ++ history_part).
    replace ([system_prompt; header_line uid]
             ++ lines ++ summary_part ++ history_part ++ [current; cue])
      with (((system_prompt :: header_line uid :: rest) ++ [current]) ++ [cue])
      by (subst rest; cbn [app]; rewrite <- !app_assoc; reflexivity).
    rewrite !join_snoc by (cbn [app]; discriminate).
    destruct rest as [|r rest].
    + exists []. cbn [join app]. now rewrite <- !app_assoc.
    + exists (nl ++ join nl (r :: rest)).
      change (join nl (system_prompt :: header_line uid :: r :: rest))
        with (system_prompt ++ nl ++ header_line uid ++ nl ++ join nl (r :: rest)).
      now rewrite <- !app_assoc.
  - destruct (last6_suffix history) as [older [Hold Hlen]].
    exists ([system_prompt; header_line uid] ++ lines ++ summary_part
            ++ history_part ++ [current; cue]),
           ([system_prompt; header_line uid] ++ lines ++ summary_part), older.
    split; [reflexivity|]. split; [|split; assumption].
    now rewrite <- !app_assoc.
Qed.

End Prompt.

Section ProfileSection.

Variable lower : str -> str.
Variable py_format : pyval -> str.


End ProfileSection.

(** ** Requests *)

Lemma find_app_miss {A} (f : A -> bool) (l : list A) (x : A) :
  f x = false -> find f (l ++ [x]) = find f l.
Proof.
  intros Hx. induction l as [|y l IH]; simpl; [now rewrite Hx|].
  now destruct (f y).
Qed.

Lemma filter_and {A} (f g : A -> bool) (l : list A) :
  filter (fun a => f a && g a) l = filter g (filter f l).
Proof.
  induction l as [|x l IH]; simpl; [reflexivity|].
  destruct (f x); simpl; [destruct (g x); now rewrite IH | exact IH].
Qed.

Lemma user_rows_of_conversation_rows (db : DB) (c : Conversation) :
  user_rows db c
  = filter (fun m => str_eqb (m_role m) (py "user")) (conversation_rows db c).
Proof. unfold user_rows, conversation_rows. apply filter_and. Qed.

(** What the service reads for a user depends on the conversation found for
    the user, on the rows of that conversation and on the number of rows
    recorded for the user. *)
Lemma same_view (lower : str -> str) (db db' : DB) (uid : str) :
  first_conversation_of db' uid = first_conversation_of db uid ->
  (forall c, first_conversation_of db uid = Some c ->
             conversation_rows db' c = conversation_rows db c) ->
  count_user_rows db' uid = count_user_rows db uid ->
  get_user_sentiment_history lower db' uid = get_user_sentiment_history lower db uid /\
  (forall limit, get_conversation_history db' uid limit
                 = get_conversation_history db uid limit) /\
  get_user_conversation_summary db' uid = get_user_conversation_summary db uid.
Proof.
  intros Hc Hrows Hcount.
  unfold get_user_sentiment_history, get_conversation_history,
    get_user_conversation_summary.
  rewrite Hc. destruct (first_conversation_of db uid) as [c|]; [|repeat split].
  specialize (Hrows c eq_refl).
  assert (Hu : user_messages_of db' c = user_messages_of db c).
  { unfold user_messages_of. fold (user_rows db' c). fold (user_rows db c).
    now rewrite !user_rows_of_conversation_rows, Hrows. }
  rewrite Hu, Hcount. fold (conversation_rows db' c). fold (conversation_rows db c).
  rewrite Hrows. repeat split.
Qed.

Section Requests.

Variable lower : str -> str.
Variable py_format : pyval -> str.
Variable generate_content : str -> result str.

(** The store [chat_endpoint] leaves behind. *)
Lemma chat_endpoint_store (db : DB) (req : MessageRequest) (clock : Clock) :
  let db0 := fst (get_or_create_conversation db (user_id req) (at_conversation clock)) in
  let c := snd (get_or_create_conversation db (user_id req) (at_conversation clock)) in
  let db1 := fst (save_message db0 (user_id req) (c_id c) (py "user") (message req)
                    (at_user_message clock)) in
  let reply := gateway_reply py_format generate_content db1 req
                 (get_conversation_history db1 (user_id req) 10)
                 (get_user_sentiment_history lower db1 (user_id req)) in
  fst (chat_endpoint lower py_format generate_content db req clock)
  = fst (save_message db1 (user_id req) (c_id c) (py "assistant") reply
           (at_assistant_message clock)) /\
  chat_context lower db req clock
  = (db1, c, get_conversation_history db1 (user_id req) 10,
     get_user_sentiment_history lower db1 (user_id req)).
Proof.
  cbv zeta. unfold chat_endpoint, chat_context.
  destruct (get_or_create_conversation db (user_id req) (at_conversation clock))
    as [db0 c].
  split; reflexivity.
Qed.

(** The response of [chat_endpoint] with its analytics bundle. *)
Lemma chat_endpoint_response (db : DB) (req : MessageRequest) (clock : Clock) :
  let db0 := fst (get_or_create_conversation db (user_id req) (at_conversation clock)) in
  let c := snd (get_or_create_conversation db (user_id req) (at_conversation clock)) in
  let db1 := fst (save_message db0 (user_id req) (c_id c) (py "user") (message req)
                    (at_user_message clock)) in
  let analysis := get_user_sentiment_history lower db1 (user_id req) in
  let reply := gateway_reply py_format generate_content db1 req
                 (get_conversation_history db1 (user_id req) 10) analysis in
  let saved := save_message db1 (user_id req) (c_id c) (py "assistant") reply
                 (at_assistant_message clock) in
  let text := if is_crisis (analyze_user_message lower (message req))
              then reply ++ crisis_notice else reply in
  exists context,
    chat_endpoint lower py_format generate_content db req clock
    = (fst saved,
       Ok {| response := text;
             response_html := replace 10 (py "<br>") text;
             r_user_id := user_id req;
             message_id := m_id (snd saved);
             context_analysis := Some context |}) /\
    first_conversation_of db1 (user_id req) = Some c /\
    ca_user_id context = user_id req /\
    ca_total_messages context = VInt (count_user_rows db (user_id req) + 1) /\
    getitem analysis "total_messages" = Ok (ca_total_messages context) /\
    getitem analysis "sentiment" = Ok (ca_sentiment_trend context) /\
    getitem analysis "engagement_level" = Ok (ca_engagement_level context) /\
    getitem analysis "topics" = Ok (ca_common_topics context) /\
    ca_current_message_analysis context = analyze_user_message lower (message req).
Proof.
  cbv zeta.
  pose proof (get_or_create_conversation_found db (user_id req) (at_conversation clock))
    as [Hfound Hmsgs].
  destruct (get_or_create_conversation db (user_id req) (at_conversation clock))
    as [db0 c] eqn:Hgc.
  cbn [fst snd] in *.
  pose proof (count_user_rows_save db0 (user_id req) (c_id c) (py "user")
                (message req) (at_user_message clock)) as Hcount.
  assert (Hc : first_conversation_of
                 (fst (save_message db0 (user_id req) (c_id c) (py "user")
                         (message req) (at_user_message clock)))
                 (user_id req) = Some c) by exact Hfound.
  assert (Hrow : In (snd (save_message db0 (user_id req) (c_id c) (py "user")
                            (message req) (at_user_message clock)))
                    (user_rows (fst (save_message db0 (user_id req) (c_id c) (py "user")
                                       (message req) (at_user_message clock))) c)).
  { unfold user_rows, save_message. cbn [fst snd messages]. apply filter_In. split.
    - apply in_or_app. right. now left.
    - cbn. now rewrite Z.eqb_refl. }
  assert (Hcount0 : count_user_rows db0 (user_id req) = count_user_rows db (user_id req)).
  { unfold count_user_rows. now rewrite Hmsgs. }
  unfold chat_endpoint, chat_context. rewrite Hgc.
  destruct (save_message db0 (user_id req) (c_id c) (py "user") (message req)
              (at_user_message clock)) as [db1 row] eqn:Hsave.
  cbn [fst snd] in *.
  assert (Hne : user_messages_of db1 c <> []).
  { apply user_messages_nonempty. eapply user_rows_nonempty_in; eassumption. }
  cbv zeta. cbn [save_message fst snd].
  rewrite (analysis_of_active_user lower db1 (user_id req) Hc Hne).
  cbn [getitem String.eqb Ascii.eqb Bool.eqb bind try_except].
  eexists. split; [reflexivity|].
  cbn [ca_user_id ca_total_messages ca_sentiment_trend ca_engagement_level
       ca_common_topics ca_current_message_analysis].
  rewrite Hcount, Hcount0. repeat split. exact Hc.
Qed.

(** X13. A /chat request that returns a response has added exactly two
    rows, the inbound message and then the reply, with the next two keys,
    both in the conversation of the user; it has added a conversation only
    for a user who had none; and the [message_id] it returns is the key of
    the reply. *)
Theorem chat_endpoint_adds_two_rows (db db' : DB) (req : MessageRequest)
    (clock : Clock) (resp : MessageResponse) :
  chat_endpoint lower py_format generate_content db req clock = (db', Ok resp) ->
  exists c inbound outbound,
    messages db' = messages db ++ [inbound; outbound] /\
    message_seq db' = (message_seq db + 2)%Z /\
    first_conversation_of db' (user_id req) = Some c /\
    (forall c0, first_conversation_of db (user_id req) = Some c0 ->
       c = c0 /\ conversations db' = conversations db) /\
    (first_conversation_of db (user_id req) = None ->
       conversations db' = conversations db ++ [c]) /\
    inbound = {| m_id := message_seq db + 1; m_user_id := user_id req;
                 m_conversation_id := c_id c; m_role := py "user";
                 m_content := message req;
                 m_timestamp := at_user_message clock |} /\
    (m_id outbound, m_user_id outbound, m_conversation_id outbound,
     m_role outbound, m_timestamp outbound)
    = ((message_seq db + 2)%Z, user_id req, c_id c, py "assistant",
       at_assistant_message clock) /\
    message_id resp = m_id outbound /\
    r_user_id resp = user_id req.
Proof.
  intros Hresp.
  destruct (chat_endpoint_response db req clock) as [context [Hret [Hc _]]].
  cbv zeta in Hret, Hc.
  pose proof (get_or_create_conversation_found db (user_id req) (at_conversation clock))
    as [Hfound Hmsgs].
  rewrite Hret in Hresp. injection Hresp as <- <-.
  eexists _, _, _.
  cbn [save_message fst snd messages message_seq conversations
       m_id m_user_id m_conversation_id m_role m_timestamp message_id r_user_id].
  rewrite Hmsgs, <- app_assoc. cbn [app].
  assert (Hseq : message_seq (fst (get_or_create_conversation db (user_id req)
                                     (at_conversation clock))) = message_seq db).
  { unfold get_or_create_conversation.
    now destruct (first_conversation_of db (user_id req)). }
  rewrite Hseq.
  replace (message_seq db + 1 + 1)%Z with (message_seq db + 2)%Z by lia.
  split; [reflexivity|]. split; [reflexivity|]. split; [exact Hc|].
  split.
  { intros c0 H0. unfold get_or_create_conversation. rewrite H0. now split. }
  split.
  { intros H0. unfold get_or_create_conversation. now rewrite H0. }
  repeat split.
Qed.

(** X14. The analytics of a /chat response count the inbound message but not
    the reply: the reported [total_messages] is the number of rows the user
    had before the request plus one, while after the request the user has
    two rows more; the reported engagement level is the one of the
    reported total. *)
Theorem chat_endpoint_reports_inbound_only (db db' : DB) (req : MessageRequest)
    (clock : Clock) (resp : MessageResponse) :
  chat_endpoint lower py_format generate_content db req clock = (db', Ok resp) ->
  exists context,
    context_analysis resp = Some context /\
    ca_total_messages context = VInt (count_user_rows db (user_id req) + 1) /\
    count_user_rows db' (user_id req) = (count_user_rows db (user_id req) + 2)%Z /\
    ca_engagement_level context
    = VStr (if (count_user_rows db (user_id req) + 1 >? 20)%Z then py "high"
            else if (count_user_rows db (user_id req) + 1 >? 10)%Z then py "medium"
            else py "low") /\
    ca_current_message_analysis context = analyze_user_message lower (message req).
Proof.
  intros Hresp.
  destruct (chat_endpoint_response db req clock)
    as [context [Hret [Hc [_ [Htotal [Hget [_ [Hlevel [_ Hcur]]]]]]]]].
  cbv zeta in Hret, Hc, Hget, Hlevel.
  pose proof (f_equal fst Hresp) as Edb. pose proof (f_equal snd Hresp) as Eresp.
  rewrite Hret in Edb, Eresp. cbn [fst snd] in Edb, Eresp.
  subst db'. injection Eresp as <-.
  exists context.
  cbn [context_analysis]. split; [reflexivity|]. split; [exact Htotal|].
  split.
  { rewrite count_user_rows_save, count_user_rows_save.
    unfold count_user_rows at 1.
    rewrite (proj2 (get_or_create_conversation_found db (user_id req)
                      (at_conversation clock))).
    fold (count_user_rows db (user_id req)). lia. }
  split; [|exact Hcur].
  match type of Hget with
  | getitem (get_user_sentiment_history lower ?d _) _ = _ =>
      destruct (analysis_cases lower d (user_id req)) as [[He _] | [c' [Hc' [_ Hne]]]];
      [ rewrite He in Hget; discriminate
      | rewrite (analysis_of_active_user lower d (user_id req) Hc' Hne) in Hget, Hlevel ]
  end.
  cbn [getitem String.eqb Ascii.eqb Bool.eqb] in Hget, Hlevel.
  injection Hlevel as <-. injection Hget as Hget. rewrite Htotal in Hget.
  injection Hget as ->. reflexivity.
Qed.

(** X15. The text a /chat request returns is the stored content of the reply
    exactly when the message is not classified as a crisis. *)
Theorem chat_endpoint_response_is_stored_reply (db db' : DB) (req : MessageRequest)
    (clock : Clock) (resp : MessageResponse) :
  chat_endpoint lower py_format generate_content db req clock = (db', Ok resp) ->
  exists outbound,
    last (messages db') outbound = outbound /\
    In outbound (messages db') /\
    m_id outbound = message_id resp /\
    (response resp = m_content outbound
     <-> is_crisis (analyze_user_message lower (message req)) = false).
Proof.
  intros Hresp.
  destruct (chat_endpoint_response db req clock) as [context [Hret _]].
  cbv zeta in Hret.
  destruct (is_crisis (analyze_user_message lower (message req))) eqn:Hcrisis;
    pose proof (f_equal fst Hresp) as Edb; pose proof (f_equal snd Hresp) as Eresp;
    rewrite Hret in Edb, Eresp; cbn [fst snd] in Edb, Eresp;
    subst db'; injection Eresp as <-;
    eexists;
    cbn [save_message fst snd messages response message_id m_id m_content];
    (split; [apply last_last|]); (split; [apply in_or_app; right; now left|]);
    (split; [reflexivity|]).
  - split; [|discriminate]. intros E. exfalso.
    assert (Hlonger : forall r : str, r ++ crisis_notice <> r).
    { intros r Er. apply (f_equal (@List.length N)) in Er.
      rewrite length_app in Er.
      assert (0 < List.length crisis_notice)%nat by (vm_compute; lia). lia. }
    exact (Hlonger _ E).
  - split; reflexivity.
Qed.

End Requests.

Section Stores.

Variable lower : str -> str.
Variable py_format : pyval -> str.

Lemma chat_endpoint_consistent (generate_content : str -> result str) (db : DB)
    (req : MessageRequest) (clock : Clock) :
  consistent db ->
  consistent (fst (chat_endpoint lower py_format generate_content db req clock)).
Proof.
  intros Hdb.
  rewrite (proj1 (chat_endpoint_store lower py_format generate_content db req clock)).
  pose proof (get_or_create_conversation_found db (user_id req) (at_conversation clock))
    as [Hfound _].
  apply first_conversation_some in Hfound as [Hin Hu].
  apply save_message_consistent.
  - apply save_message_consistent.
    + now apply get_or_create_conversation_consistent.
    + eexists. split; [exact Hin|]. now split.
  - eexists. split; [exact Hin|]. now split.
Qed.

(** X16. Every store reached from a consistent one by /chat requests, whatever
    the completion service answers, is consistent: one conversation per
    user, keys that are unique and issued by the sequences, and every
    message in the conversation of its own user. *)
Theorem served_stores_consistent
    (requests : list (MessageRequest * Clock * (str -> result str))) (db : DB) :
  consistent db -> consistent (serve lower py_format requests db).
Proof.
  revert db. induction requests as [|[[req clock] service] requests IH];
    intros db Hdb; simpl.
  - exact Hdb.
  - apply IH. now apply chat_endpoint_consistent.
Qed.

(** X17. On a consistent store a /chat request of one user changes nothing of
    what the service reads for any other user: analysis, history and
    summary of the other user are as before. *)
Theorem chat_endpoint_leaves_other_users (generate_content : str -> result str)
    (db : DB) (req : MessageRequest) (clock : Clock) (other : str) :
  consistent db -> other <> user_id req ->
  let db' := fst (chat_endpoint lower py_format generate_content db req clock) in
  get_user_sentiment_history lower db' other = get_user_sentiment_history lower db other /\
  (forall limit, get_conversation_history db' other limit
                 = get_conversation_history db other limit) /\
  get_user_conversation_summary db' other = get_user_conversation_summary db other.
Proof.
  intros Hdb Hother db'. subst db'.
  rewrite (proj1 (chat_endpoint_store lower py_format generate_content db req clock)).
  cbv zeta.
  set (reply := gateway_reply _ _ _ _ _ _). clearbody reply.
  pose proof (get_or_create_conversation_found db (user_id req) (at_conversation clock))
    as [Hfound Hmsgs].
  pose proof (get_or_create_conversation_consistent (user_id req) (at_conversation clock) Hdb)
    as Hdb0.
  assert (Hconv : first_conversation_of
                    (fst (get_or_create_conversation db (user_id req) (at_conversation clock)))
                    other = first_conversation_of db other).
  { unfold get_or_create_conversation.
    destruct (first_conversation_of db (user_id req)); [reflexivity|].
    unfold first_conversation_of. simpl. apply find_app_miss. simpl.
    apply str_eqb_neq. congruence. }
  set (db0 := fst (get_or_create_conversation db (user_id req) (at_conversation clock))) in *.
  set (c := snd (get_or_create_conversation db (user_id req) (at_conversation clock))) in *.
  destruct (first_conversation_some _ _ Hfound) as [Hin Hu].
  apply same_view.
  - exact Hconv.
  - intros c' Hc'. rewrite !conversation_rows_save.
    rewrite <- Hconv in Hc'. apply first_conversation_some in Hc' as [Hin' Hu'].
    destruct (Z.eqb_spec (c_id c) (c_id c')) as [E|_].
    + elim Hother.
      assert (c = c').
      { apply (NoDup_map_injective c_id (conversations db0)); trivial.
        apply (unique_conversation_ids Hdb0). }
      congruence.
    + rewrite !app_nil_r. unfold conversation_rows. now rewrite Hmsgs.
  - rewrite !count_user_rows_save_other by assumption.
    unfold count_user_rows. now rewrite Hmsgs.
Qed.

End Stores.

(** X18. [GET /user/{user_id}/analysis] on a consistent store: whenever the
    analysis carries [total_messages], it is the [total_messages] of the
    summary returned beside it; without a conversation the analysis is the
    zero-valued one and the summary counts nothing. *)
Theorem get_user_analysis_totals_agree (lower : str -> str) (db : DB) (uid : str) :
  consistent db ->
  let r := get_user_analysis lower uid db in
  ua_user_id r = uid /\
  (forall total, getitem (ua_analysis r) "total_messages" = Ok total ->
     total = VInt (total_messages (ua_summary r)) /\
     total_conversations (ua_summary r) = 1%Z) /\
  (first_conversation_of db uid = None ->
     ua_analysis r = empty_analysis /\
     total_conversations (ua_summary r) = 0%Z /\
     total_messages (ua_summary r) = 0%Z).
Proof.
  intros Hdb r. subst r. unfold get_user_analysis. cbn [ua_user_id ua_analysis ua_summary].
  split; [reflexivity|]. split.
  - intros total Ht.
    destruct (analysis_cases lower db uid) as [[He _] | [c [Hc [_ Hne]]]].
    + rewrite He in Ht. discriminate.
    + rewrite (analysis_of_active_user lower db uid Hc Hne) in Ht.
      cbn [getitem String.eqb Ascii.eqb Bool.eqb] in Ht. injection Ht as <-.
      unfold get_user_conversation_summary. rewrite Hc. cbn [total_messages total_conversations].
      fold (conversation_rows db c).
      rewrite (@conversation_rows_count db uid c Hdb Hc). now split.
  - intros Hnone. unfold get_user_sentiment_history, get_user_conversation_summary.
    rewrite Hnone. repeat split.
Qed.

(** * The further properties on concrete stores *)

Lemma sample_db_consistent : consistent sample_db.
Proof.
  constructor; unfold sample_db; simpl.
  - repeat constructor. simpl. tauto.
  - repeat constructor. simpl. tauto.
  - intros c [<-|[]]. simpl. lia.
  - repeat constructor; simpl; intuition discriminate.
  - intros m [<-|[<-|[<-|[]]]]; simpl; lia.
  - intros m Hm. exists sample_conversation. split; [now left|].
    destruct Hm as [<-|[<-|[<-|[]]]]; now split.
Qed.


Lemma get_personalized_greeting_of_history_witness :
  consistent sample_db /\
  get_personalized_greeting (py "nobody")
    (get_user_sentiment_history ascii_lower sample_db (py "nobody"))
  = Raise (KeyError "total_messages") /\
  get_personalized_greeting (py "ana")
    (get_user_sentiment_history ascii_lower sample_db (py "ana"))
  = Ok positive_mood_greeting.
Proof.
  split; [exact sample_db_consistent|].
  destruct (@get_personalized_greeting_of_history ascii_lower sample_db (py "nobody")
              sample_db_consistent) as [Hsilent _].
  split; [apply Hsilent; now left|].
  destruct (@get_personalized_greeting_of_history ascii_lower sample_db (py "ana")
              sample_db_consistent) as [_ Hactive].
  destruct (Hactive sample_conversation eq_refl) as [g [s [Hg [Hs [_ [_ Hsent]]]]]].
  { vm_compute. discriminate. }
  rewrite Hg. f_equal.
  assert (Es : s = py "positive") by (vm_compute in Hs; injection Hs as <-; reflexivity).
  apply Hsent; [vm_compute; discriminate | exact Es].
Defined.

Lemma build_contextual_prompt_frame_witness :
  exists prompt middle,
    build_contextual_prompt basic_format (py "ana") (py "hello")
      (get_conversation_history sample_db (py "ana") 10)
      (get_user_sentiment_history ascii_lower sample_db (py "ana")) sample_db
    = Ok prompt /\
    prompt = system_prompt ++ nl ++ header_line (py "ana") ++ middle
             ++ nl ++ (nl ++ py "Current User Message: " ++ py "hello")
             ++ nl ++ (nl ++ py "Assistant:").
Proof.
  destruct (build_contextual_prompt basic_format (py "ana") (py "hello")
              (get_conversation_history sample_db (py "ana") 10)
              (get_user_sentiment_history ascii_lower sample_db (py "ana")) sample_db)
    as [prompt|e] eqn:E; [|vm_compute in E; discriminate].
  destruct (@build_contextual_prompt_frame basic_format (py "ana") (py "hello")
              _ _ sample_db prompt E) as [[middle Hm] _].
  exists prompt, middle. split; [reflexivity | exact Hm].
Defined.

Lemma served_stores_consistent_witness :
  consistent empty_db /\
  consistent
    (serve ascii_lower basic_format
       [({| message := py "hello"; user_id := py "ana" |}, noon,
         canned (Ok (py "Hello Ana, how are you today?")));
        ({| message := py "I feel overwhelmed"; user_id := py "ben" |}, noon,
         canned (Raise (ServiceError 503)))]
       empty_db).
Proof.
  split; [exact empty_db_consistent|].
  apply (@served_stores_consistent ascii_lower basic_format). exact empty_db_consistent.
Defined.

Lemma chat_endpoint_leaves_other_users_witness :
  consistent sample_db /\ py "ana" <> py "ben" /\
  get_user_sentiment_history ascii_lower
    (fst (chat_endpoint ascii_lower basic_format (canned (Raise (ServiceError 503)))
            sample_db {| message := py "I feel overwhelmed"; user_id := py "ben" |} noon))
    (py "ana")
  = get_user_sentiment_history ascii_lower sample_db (py "ana").
Proof.
  assert (Hother : py "ana" <> py "ben") by (vm_compute; discriminate).
  split; [exact sample_db_consistent|]. split; [exact Hother|].
  exact (proj1 (@chat_endpoint_leaves_other_users ascii_lower basic_format
                  (canned (Raise (ServiceError 503))) sample_db
                  {| message := py "I feel overwhelmed"; user_id := py "ben" |} noon
                  (py "ana") sample_db_consistent Hother)).
Defined.

Lemma get_user_analysis_totals_agree_witness :
  consistent sample_db /\
  getitem (ua_analysis (get_user_analysis ascii_lower (py "ana") sample_db))
    "total_messages" = Ok (VInt 3) /\
  total_messages (ua_summary (get_user_analysis ascii_lower (py "ana") sample_db)) = 3%Z.
Proof.
  split; [exact sample_db_consistent|].
  assert (H : getitem (ua_analysis (get_user_analysis ascii_lower (py "ana") sample_db))
                "total_messages" = Ok (VInt 3)) by (vm_compute; reflexivity).
  split; [exact H|].
  destruct (@get_user_analysis_totals_agree ascii_lower sample_db (py "ana")
              sample_db_consistent) as [_ [Hagree _]].
  destruct (Hagree _ H) as [E _].
  apply (f_equal (fun v => match v with VInt n => n | _ => 0%Z end)) in E.
  symmetry. exact E.
Defined.

(** A first request of "ben" on a store that holds three rows. *)
Lemma chat_endpoint_adds_two_rows_witness :
  let req := {| message := py "hello"; user_id := py "ben" |} in
  let service := canned (Ok (py "Hello Ben, how are you today?")) in
  exists db' resp,
    chat_endpoint ascii_lower basic_format service sample_db req noon = (db', Ok resp) /\
    List.length (messages db') = 5%nat /\
    List.length (conversations db') = 2%nat /\
    message_id resp = 5%Z.
Proof.
  intros req service.
  destruct (chat_endpoint ascii_lower basic_format service sample_db req noon)
    as [db' [resp|e]] eqn:E; [|vm_compute in E; discriminate].
  exists db', resp. split; [reflexivity|].
  destruct (@chat_endpoint_adds_two_rows ascii_lower basic_format service sample_db db'
              req noon resp E)
    as [c [inbound [outbound [Hrows [_ [_ [_ [Hnew [_ [Hout [Hid _]]]]]]]]]]].
  split; [rewrite Hrows, length_app; reflexivity|].
  split; [rewrite Hnew by reflexivity; rewrite length_app; reflexivity|].
  rewrite Hid. now injection Hout as -> _ _ _ _.
Defined.

(** A further request of "ana", who has three rows. *)
Lemma chat_endpoint_reports_inbound_only_witness :
  let req := {| message := py "I feel better"; user_id := py "ana" |} in
  let service := canned (Raise (ServiceError 503)) in
  exists db' resp context,
    chat_endpoint ascii_lower basic_format service sample_db req noon = (db', Ok resp) /\
    context_analysis resp = Some context /\
    ca_total_messages context = VInt 4 /\
    count_user_rows db' (py "ana") = 5%Z.
Proof.
  intros req service.
  destruct (chat_endpoint ascii_lower basic_format service sample_db req noon)
    as [db' [resp|e]] eqn:E; [|vm_compute in E; discriminate].
  destruct (@chat_endpoint_reports_inbound_only ascii_lower basic_format service
              sample_db db' req noon resp E)
    as [context [Hctx [Htotal [Hcount _]]]].
  exists db', resp, context. split; [reflexivity|]. split; [exact Hctx|].
  split; [exact Htotal | exact Hcount].
Defined.

Lemma chat_endpoint_response_is_stored_reply_witness :
  let req := {| message := py "I feel better"; user_id := py "ana" |} in
  let service := canned (Ok (py "  That is good to hear, Ana.  ")) in
  exists db' resp outbound,
    chat_endpoint ascii_lower basic_format service sample_db req noon = (db', Ok resp) /\
    In outbound (messages db') /\
    m_id outbound = message_id resp /\
    response resp = m_content outbound.
Proof.
  intros req service.
  destruct (chat_endpoint ascii_lower basic_format service sample_db req noon)
    as [db' [resp|e]] eqn:E; [|vm_compute in E; discriminate].
  destruct (@chat_endpoint_response_is_stored_reply ascii_lower basic_format service
              sample_db db' req noon resp E)
    as [outbound [_ [Hin [Hid Hiff]]]].
  exists db', resp, outbound. split; [reflexivity|]. split; [exact Hin|].
  split; [exact Hid|]. apply Hiff. vm_compute. reflexivity.
Defined.
